(** * Classroom environment helper and reset script

    A shallow embedding of [Solutions/Includes/_dbacademy_helper.py]
    (class [DBAcademyHelper]) and of the driver cells of
    [Includes/Reset.py], together with the properties their
    specification states about them.

    Python strings are embedded as [string]; a character is a code point
    in the range 0..255, so [ascii] stands for it.  The Spark session the
    scripts talk to ([spark], [dbutils]) is embedded as a record [Spark]
    and every call into it is appended to a journal carried by that
    record. *)

From Stdlib Require Import Ascii String ZArith Bool.
From stdpp Require Import gmap strings list pretty.

Local Open Scope Z_scope.
Local Open Scope nat_scope.

(** ** Strings *)

Module Str.

Definition code (c : ascii) : nat := nat_of_ascii c.

(** [c1 <= c <= c2] on code points: one range [c1-c2] of a bracket
    expression. *)
Definition in_range (c : ascii) (r : ascii * ascii) : bool :=
  (code (fst r) <=? code c) && (code c <=? code (snd r)).

(** A bracket expression of Python's [re]: inclusive ranges, negated
    when it starts with [^]. *)
Record charclass := CharClass {
  negated : bool;
  ranges : list (ascii * ascii)
}.

Definition class_matches (cl : charclass) (c : ascii) : bool :=
  xorb (negated cl) (existsb (in_range c) (ranges cl)).

(** [re.sub(cl, repl, s)] for a pattern that is a single bracket
    expression: scanning left to right, every character the class
    matches is replaced by [repl], every other one is copied. *)
Fixpoint re_sub (cl : charclass) (repl s : string) : string :=
  match s with
  | EmptyString => EmptyString
  | String c rest =>
      if class_matches cl c then repl +:+ re_sub cl repl rest
      else String c (re_sub cl repl rest)
  end.

(** The pattern ["[^a-zA-Z0-9]"]. *)
Definition non_alnum : charclass :=
  CharClass true [("a", "z"); ("A", "Z"); ("0", "9")]%char.

(** Membership in [a-zA-Z0-9], written out on code points. *)
Definition is_alnum (c : ascii) : bool :=
  ((97 <=? code c) && (code c <=? 122))
  || ((65 <=? code c) && (code c <=? 90))
  || ((48 <=? code c) && (code c <=? 57)).

(** [str.lower] on one code point below 256: the letters [A-Z] and the
    Latin-1 capitals U+00C0..U+00DE (U+00D7, the multiplication sign,
    apart) move up by 32, every other code point is kept. *)
Definition lower_char (c : ascii) : ascii :=
  let n := code c in
  if ((65 <=? n) && (n <=? 90))
     || ((192 <=? n) && (n <=? 222) && negb (n =? 215))
  then ascii_of_nat (n + 32) else c.

Fixpoint lower (s : string) : string :=
  match s with
  | EmptyString => EmptyString
  | String c rest => String (lower_char c) (lower rest)
  end.

(** [s.startswith(p)]. *)
Definition startswith (s p : string) : bool := String.prefix p s.

(** Python truthiness of a [str]. *)
Definition truthy (s : string) : bool :=
  match s with EmptyString => false | _ => true end.

End Str.

(** ** The Spark session *)

(** The SQL statements the scripts send through [spark.sql]. *)
Inductive stmt :=
| SelectCurrentUser
    (* SELECT current_user() *)
| UseCatalog (c : string)
    (* USE CATALOG {c} *)
| UseDatabase (d : string)
    (* USE {d} *)
| CreateDatabaseIfNotExists (c d : string)
    (* CREATE DATABASE IF NOT EXISTS {c}.{d} *)
| ShowDatabases
    (* SHOW DATABASES *)
| DropDatabaseIfExistsCascade (c : option string) (d : string).
    (* DROP DATABASE IF EXISTS {d} CASCADE, or ... {c}.{d} CASCADE *)

(** A streaming query handle.  [stop_raises] and [await_raises] fix what
    [stop()] and [awaitTermination()] do when they are called on it. *)
Record Stream := MkStream {
  stream_id : nat;
  stream_name : option string;
  stream_active : bool;
  stop_raises : bool;
  await_raises : bool
}.

(** Every call that leaves the scripts. *)
Inductive event :=
| ESql (q : stmt)
| EClearCache
| EConfSet (k v : string)
| EStop (id : nat)
| EAwait (id : nat)
| ERm (path : string) (recurse : bool)
| EPrint (text : string).

Inductive exn :=
| AnalysisException (q : stmt)
| TimeoutException (id : nat)
| StreamingQueryException (id : nat)
| IOException (path : string)
| TypeError.

Record Spark := MkSpark {
  session_user : string;                    (* what current_user() answers *)
  metastore : gmap string (gset string);    (* catalog -> its databases *)
  current_catalog : string;
  current_database : string;
  cache : gset string;                      (* cached tables *)
  conf : gmap string string;                (* spark.conf *)
  streams : list Stream;                    (* spark.streams *)
  dbfs : gset string;                       (* paths of the file system *)
  clock : Z;                                (* time.time(), in seconds *)
  journal : list event                      (* calls made so far, oldest first *)
}.

(** Field updates of the session. *)
Definition set_current (c d : string) (w : Spark) : Spark :=
  MkSpark (session_user w) (metastore w) c d (cache w) (conf w)
          (streams w) (dbfs w) (clock w) (journal w).

Definition set_metastore (m : gmap string (gset string)) (w : Spark) : Spark :=
  MkSpark (session_user w) m (current_catalog w) (current_database w)
          (cache w) (conf w) (streams w) (dbfs w) (clock w) (journal w).

Definition set_cache (t : gset string) (w : Spark) : Spark :=
  MkSpark (session_user w) (metastore w) (current_catalog w)
          (current_database w) t (conf w) (streams w) (dbfs w) (clock w)
          (journal w).

Definition set_conf (k : gmap string string) (w : Spark) : Spark :=
  MkSpark (session_user w) (metastore w) (current_catalog w)
          (current_database w) (cache w) k (streams w) (dbfs w) (clock w)
          (journal w).

Definition set_streams (l : list Stream) (w : Spark) : Spark :=
  MkSpark (session_user w) (metastore w) (current_catalog w)
          (current_database w) (cache w) (conf w) l (dbfs w) (clock w)
          (journal w).

Definition set_dbfs (f : gset string) (w : Spark) : Spark :=
  MkSpark (session_user w) (metastore w) (current_catalog w)
          (current_database w) (cache w) (conf w) (streams w) f (clock w)
          (journal w).

Definition record (e : event) (w : Spark) : Spark :=
  MkSpark (session_user w) (metastore w) (current_catalog w)
          (current_database w) (cache w) (conf w) (streams w) (dbfs w)
          (clock w) (journal w ++ [e]).

(** The databases of catalog [c]; none when there is no such catalog. *)
Definition databases (w : Spark) (c : string) : gset string :=
  default ∅ (metastore w !! c).

(** ** Computations: state and exceptions *)

Inductive result (S A : Type) :=
| Ok (a : A) (s : S)
| Raised (e : exn) (s : S).
Arguments Ok {S A} a s.
Arguments Raised {S A} e s.

Definition final {S A} (r : result S A) : S :=
  match r with Ok _ s => s | Raised _ s => s end.

Definition M (S A : Type) : Type := S -> result S A.

Definition ret {S A} (a : A) : M S A := fun s => Ok a s.

Definition raise {S A} (e : exn) : M S A := fun s => Raised e s.

Definition bind {S A B} (m : M S A) (k : A -> M S B) : M S B :=
  fun s => match m s with
           | Ok a s' => k a s'
           | Raised e s' => Raised e s'
           end.

(** [try: m  except: h], a bare [except] clause: whatever [m] raises is
    caught, and [h] runs in the state [m] left behind. *)
Definition try_except {S A} (m h : M S A) : M S A :=
  fun s => match m s with
           | Ok a s' => Ok a s'
           | Raised _ s' => h s'
           end.

Declare Scope py_scope.
Delimit Scope py_scope with py.
Notation "x <- m ;; k" := (bind m (fun x => k))
  (at level 100, m at next level, right associativity) : py_scope.
Notation "m ;; k" := (bind m (fun _ => k))
  (at level 100, right associativity) : py_scope.
Local Open Scope py_scope.

(** [for x in l: body x]. *)
Fixpoint for_each {S X} (l : list X) (body : X -> M S unit) : M S unit :=
  match l with
  | [] => ret tt
  | x :: rest => body x ;; for_each rest body
  end.

(** ** Calls into the session *)

(** A data frame: the rows of its one column. *)
Abbreviation DataFrame := (list string).

(** [spark.sql(q)]: the statement is journalled, then run.  Names are
    compared as they are written.  A statement that names a catalog the
    metastore does not have, or [USE] of a database the active catalog
    does not have, raises; [USE CATALOG] makes ["default"] the active
    database; [CREATE ... IF NOT EXISTS] and [DROP ... IF EXISTS] change
    nothing when the database is there already, or is not there. *)
Definition sql (q : stmt) : M Spark DataFrame := fun w0 =>
  let w := record (ESql q) w0 in
  match q with
  | SelectCurrentUser => Ok [session_user w] w
  | UseCatalog c =>
      if decide (c ∈ dom (metastore w))
      then Ok [] (set_current c "default" w)
      else Raised (AnalysisException q) w
  | UseDatabase d =>
      if decide (d ∈ databases w (current_catalog w))
      then Ok [] (set_current (current_catalog w) d w)
      else Raised (AnalysisException q) w
  | CreateDatabaseIfNotExists c d =>
      match metastore w !! c with
      | Some dbs => Ok [] (set_metastore (<[c := dbs ∪ {[d]}]> (metastore w)) w)
      | None => Raised (AnalysisException q) w
      end
  | ShowDatabases => Ok (elements (databases w (current_catalog w))) w
  | DropDatabaseIfExistsCascade oc d =>
      let c := default (current_catalog w) oc in
      match metastore w !! c with
      | Some dbs => Ok [] (set_metastore (<[c := dbs ∖ {[d]}]> (metastore w)) w)
      | None => Raised (AnalysisException q) w
      end
  end.

(** [df.first()[0]]: [first()] is [None] on an empty frame, and
    subscripting [None] is a [TypeError]. *)
Definition first_0 (df : DataFrame) : M Spark string :=
  match df with
  | [] => raise TypeError
  | x :: _ => ret x
  end.

(** [spark.catalog.clearCache()]. *)
Definition clearCache : M Spark unit := fun w =>
  Ok tt (set_cache ∅ (record EClearCache w)).

(** [spark.conf.set(k, v)]. *)
Definition conf_set (k v : string) : M Spark unit := fun w =>
  Ok tt (set_conf (<[k := v]> (conf w)) (record (EConfSet k v) w)).

(** [spark.streams.active]: the handles of the queries that run. *)
Definition streams_active : M Spark (list Stream) := fun w =>
  Ok (filter (fun s => stream_active s = true) (streams w)) w.

Definition deactivate (id : nat) (s : Stream) : Stream :=
  if decide (stream_id s = id)
  then MkStream (stream_id s) (stream_name s) false (stop_raises s)
                (await_raises s)
  else s.

(** [stream.stop()]: the query is no longer active afterwards, unless
    stopping it timed out. *)
Definition stream_stop (s : Stream) : M Spark unit := fun w0 =>
  let w := record (EStop (stream_id s)) w0 in
  if stop_raises s then Raised (TimeoutException (stream_id s)) w
  else Ok tt (set_streams (deactivate (stream_id s) <$> streams w) w).

(** [stream.awaitTermination()]: raises when the query ended with an
    error. *)
Definition stream_awaitTermination (s : Stream) : M Spark unit := fun w0 =>
  let w := record (EAwait (stream_id s)) w0 in
  if await_raises s then Raised (StreamingQueryException (stream_id s)) w
  else Ok tt w.

(** The paths at or below [path]. *)
Definition below (path p : string) : bool :=
  bool_decide (p = path) || Str.startswith p (path +:+ "/").

(** [dbutils.fs.rm(path, recurse)]: answers whether anything was removed;
    a directory with content is only removed when [recurse] is set. *)
Definition fs_rm (path : string) (recurse : bool) : M Spark bool := fun w0 =>
  let w := record (ERm path recurse) w0 in
  let hit := filter (fun p => below path p = true) (dbfs w) in
  if recurse || bool_decide (hit ⊆ {[path]})
  then Ok (negb (bool_decide (hit = ∅))) (set_dbfs (dbfs w ∖ hit) w)
  else Raised (IOException path) w.

(** [print(text)]. *)
Definition print (text : string) : M Spark unit := fun w =>
  Ok tt (record (EPrint text) w).

(** [int(time.time())]. *)
Definition time_time : M Spark Z := fun w => Ok (clock w) w.

(** How an f-string shows a value. *)
Definition str_of_int (z : Z) : string := pretty z.

Definition str_of_bool (b : bool) : string :=
  if b then "True" else "False".

Definition str_of_opt (o : option string) : string :=
  match o with Some s => s | None => "None" end.

(** ** The helper object *)

(** The attributes of a [DBAcademyHelper] instance.  [create_db] is only
    set by [init]; before that the attribute does not exist. *)
Record DBAcademyHelper := MkHelper {
  start : Z;
  course_name : string;
  lesson : option string;
  catalog : string;
  catalogs : list string;
  username : string;
  db_name_prefix : string;
  source_db_name : option string;
  working_dir_prefix : string;
  db_name : string;
  create_db : option bool
}.

Definition nl : string := String (ascii_of_nat 10) EmptyString.
Definition dq : string := String (ascii_of_nat 34) EmptyString.

(** [DBAcademyHelper(lesson, catalog)], that is [__init__]. *)
Definition __init__ (lesson : option string) (catalog : string)
  : M Spark DBAcademyHelper :=
  start <- time_time ;;
  let course_name := "ncouc" in
  let catalogs :=
    if String.eqb catalog "hive_metastore" then ["hive_metastore"]
    else [catalog; "hive_metastore"] in
  df <- sql SelectCurrentUser ;;
  username <- first_0 df ;;
  let clean_username := Str.re_sub Str.non_alnum "_" username in
  let db_name_prefix := "dbacademy_" +:+ clean_username +:+ "_" +:+ course_name in
  let working_dir_prefix :=
    "dbfs:/user/" +:+ username +:+ "/dbacademy/" +:+ course_name in
  match lesson with
  | Some l =>
      if Str.truthy l then
        let l := Str.lower l in
        let clean_lesson := Str.re_sub Str.non_alnum "_" l in
        ret (MkHelper start course_name (Some l) catalog catalogs username
               db_name_prefix None working_dir_prefix
               (db_name_prefix +:+ "_" +:+ clean_lesson) None)
      else
        ret (MkHelper start course_name lesson catalog catalogs username
               db_name_prefix None working_dir_prefix db_name_prefix None)
  | None =>
      ret (MkHelper start course_name lesson catalog catalogs username
             db_name_prefix None working_dir_prefix db_name_prefix None)
  end.

(** A method runs on the instance and the session. *)
Definition Env : Type := DBAcademyHelper * Spark.

Definition on_spark {A} (m : M Spark A) : M Env A := fun s =>
  match m (snd s) with
  | Ok a w => Ok a (fst s, w)
  | Raised e w => Raised e (fst s, w)
  end.

Definition self : M Env DBAcademyHelper := fun s => Ok (fst s) s.

(** [self.create_db = b]. *)
Definition set_create_db (b : bool) : M Env unit := fun s =>
  let h := fst s in
  Ok tt (MkHelper (start h) (course_name h) (lesson h) (catalog h)
           (catalogs h) (username h) (db_name_prefix h) (source_db_name h)
           (working_dir_prefix h) (db_name h) (Some b), snd s).

Definition init (create_db : bool) : M Env unit :=
  on_spark clearCache ;;
  set_create_db create_db ;;
  if create_db then
    h <- self ;;
    for_each (catalogs h) (fun c =>
      on_spark (print (nl +:+ "Creating the database " +:+ dq +:+ c +:+ "."
                       +:+ db_name h +:+ dq)) ;;
      on_spark (sql (CreateDatabaseIfNotExists c (db_name h))) ;;
      ret tt) ;;
    on_spark (sql (UseCatalog (catalog h))) ;;
    on_spark (sql (UseDatabase (db_name h))) ;;
    ret tt
  else ret tt.

(** [df.filter("databaseName == 'name'").count()]. *)
Definition count_databaseName_eq (name : string) (df : DataFrame) : nat :=
  length (filter (fun r => r = name) df).

Definition cleanup : M Env unit :=
  active <- on_spark streams_active ;;
  for_each active (fun stream =>
    on_spark (print ("Stopping the stream " +:+ dq
                     +:+ str_of_opt (stream_name stream) +:+ dq)) ;;
    on_spark (stream_stop stream) ;;
    try_except (on_spark (stream_awaitTermination stream)) (ret tt)) ;;
  h <- self ;;
  for_each (catalogs h) (fun c =>
    on_spark (sql (UseCatalog c)) ;;
    df <- on_spark (sql ShowDatabases) ;;
    if count_databaseName_eq (db_name h) df =? 1 then
      on_spark (print ("Dropping the database " +:+ dq +:+ c +:+ "."
                       +:+ db_name h +:+ dq)) ;;
      on_spark (sql (DropDatabaseIfExistsCascade None (db_name h))) ;;
      ret tt
    else ret tt).

Definition conclude_setup : M Env unit :=
  h <- self ;;
  on_spark (conf_set "da.catalog" (catalog h)) ;;
  on_spark (conf_set "da.db_name" (db_name h)) ;;
  now <- on_spark time_time ;;
  on_spark (print (nl +:+ "Setup completed in "
                   +:+ str_of_int (now - start h)%Z +:+ " seconds")).

(** ** The reset script *)

(** The driver cell of [Reset.py].  The global [catalog] it reads is set
    by the notebook run before it and is an argument here. *)
Definition reset_script (catalog : string) : M Spark unit :=
  DA <- __init__ None catalog ;;
  let course := "ncouc" in
  df <- sql SelectCurrentUser ;;
  username <- first_0 df ;;
  let clean_username := Str.re_sub Str.non_alnum "_" username in
  for_each (catalogs DA) (fun catalog =>
    print ("Processing the catalog " +:+ catalog) ;;
    sql (UseCatalog catalog) ;;
    rows <- sql ShowDatabases ;;
    for_each rows (fun row =>
      let db_name := row in
      if Str.startswith db_name (db_name_prefix DA) then
        print (" - dropping database " +:+ catalog +:+ "." +:+ db_name) ;;
        sql (DropDatabaseIfExistsCascade (Some catalog) db_name) ;;
        ret tt
      else ret tt)) ;;
  result <- fs_rm (working_dir_prefix DA) true ;;
  print (nl +:+ "Deleted " +:+ working_dir_prefix DA +:+ ": "
         +:+ str_of_bool result) ;;
  print (nl +:+ "Course environment succesfully reset").

(** ** Sample sessions *)

Definition jane : Spark :=
  MkSpark "jane.doe@example.com"
    {[ "hive_metastore" := {[ "default"; "dbacademy_jane_doe_example_com_ncouc";
                              "dbacademy_jane_doe_example_com_ncouc_intro";
                              "sales" ]};
       "main" := {[ "default"; "dbacademy_jane_doe_example_com_ncouc" ]} ]}
    "hive_metastore" "default" {[ "sales.orders" ]} ∅
    [ MkStream 1 (Some "ingest") true false true;
      MkStream 2 None true false false;
      MkStream 3 (Some "old") false false false ]
    {[ "dbfs:/user/jane.doe@example.com/dbacademy/ncouc/raw/a.json";
       "dbfs:/user/jane.doe@example.com/notes.txt" ]}
    1700000000 [].

Definition jane_helper (l : option string) (c : string) : DBAcademyHelper :=
  match __init__ l c jane with
  | Ok h _ => h
  | Raised _ _ => MkHelper 0 "" None "" [] "" "" None "" "" None
  end.

(** ** Vocabulary of the statements *)

(** The three methods a notebook calls on an instance. *)
Inductive method :=
| Init (create_db : bool)
| Cleanup
| ConcludeSetup.

Definition call (m : method) : M Env unit :=
  match m with
  | Init b => init b
  | Cleanup => cleanup
  | ConcludeSetup => conclude_setup
  end.

(** The calls made between session [w] and the later session [w']. *)
Definition since (w w' : Spark) : list event :=
  drop (length (journal w)) (journal w').

(** The SQL statements among some calls, in order. *)
Definition sql_of (j : list event) : list stmt :=
  omap (fun e => match e with ESql q => Some q | _ => None end) j.

(** The catalog list a helper for [catalog] works on. *)
Definition catalog_list (catalog : string) : list string :=
  if decide (catalog = "hive_metastore") then ["hive_metastore"]
  else [catalog; "hive_metastore"].

(** [m] keeps [P]: started in a state where [P] holds, it leaves such a
    state behind, whether it returns or raises. *)
Definition keeps {S A} (P : S -> Prop) (m : M S A) : Prop :=
  forall s, P s -> P (final (m s)).

(** [m] raises nothing but exceptions in [E]. *)
Definition raises_only {S A} (E : exn -> Prop) (m : M S A) : Prop :=
  forall s e s', m s = Raised e s' -> E e.

(** The exceptions of the engine that no handler of the scripts covers:
    a statement that fails, a [stop] that times out. *)
Definition uncaught (e : exn) : Prop :=
  (exists q, e = AnalysisException q) \/ (exists id, e = TimeoutException id).

(** A call the reset script may make when its helper has the prefix [pfx]
    and the catalog list [cs]: anything but a [DROP] of a database that
    does not start with [pfx] or of a catalog outside [cs]. *)
Definition reset_may (pfx : string) (cs : list string) (e : event) : Prop :=
  match e with
  | ESql (DropDatabaseIfExistsCascade oc d) =>
      exists c, oc = Some c /\ c ∈ cs /\ Str.startswith d pfx = true
  | _ => True
  end.

(** The calls [cleanup] makes to stop the query [s]. *)
Definition stop_calls (s : Stream) : list event :=
  [ EPrint ("Stopping the stream " +:+ dq +:+ str_of_opt (stream_name s)
            +:+ dq);
    EStop (stream_id s);
    EAwait (stream_id s) ].

(** The registry once the queries [l] have been stopped, in that order. *)
Definition stop_all (l ss : list Stream) : list Stream :=
  foldl (fun ss s => deactivate (stream_id s) <$> ss) ss l.

(** The calls [cleanup] makes for catalog [c] when the session at the
    start of [cleanup] is [w]. *)
Definition cleanup_calls (db : string) (w : Spark) (c : string) : list event :=
  ESql (UseCatalog c) :: ESql ShowDatabases
  :: (if decide (db ∈ databases w c)
      then [ EPrint ("Dropping the database " +:+ dq +:+ c +:+ "." +:+ db
                     +:+ dq);
             ESql (DropDatabaseIfExistsCascade None db) ]
      else []).

(** The calls the reset script makes for one row [row] of the listing of
    catalog [c]. *)
Definition reset_row_calls (pfx c row : string) : list event :=
  if Str.startswith row pfx
  then [ EPrint (" - dropping database " +:+ c +:+ "." +:+ row);
         ESql (DropDatabaseIfExistsCascade (Some c) row) ]
  else [].

(** The calls the reset script makes for catalog [c] when the session at
    the start of the script is [w]. *)
Definition reset_calls (pfx : string) (w : Spark) (c : string) : list event :=
  EPrint ("Processing the catalog " +:+ c)
  :: ESql (UseCatalog c) :: ESql ShowDatabases
  :: flat_map (reset_row_calls pfx c) (elements (databases w c)).

(** The databases of a catalog whose name starts with [pfx]. *)
Definition prefixed (pfx : string) (dbs : gset string) : gset string :=
  filter (fun d => Str.startswith d pfx = true) dbs.

(** The instance once [self.create_db = b] has run. *)
Definition with_create_db (b : bool) (h : DBAcademyHelper) : DBAcademyHelper :=
  MkHelper (start h) (course_name h) (lesson h) (catalog h) (catalogs h)
    (username h) (db_name_prefix h) (source_db_name h) (working_dir_prefix h)
    (db_name h) (Some b).

(** The calls [init] makes to create [db] in catalog [c]. *)
Definition create_calls (db c : string) : list event :=
  [ EPrint (nl +:+ "Creating the database " +:+ dq +:+ c +:+ "." +:+ db
            +:+ dq);
    ESql (CreateDatabaseIfNotExists c db) ].

(** A character of an unquoted name: [a-zA-Z0-9] or ['_']. *)
Definition name_char (c : ascii) : bool :=
  Str.is_alnum c || Ascii.eqb c "_".

(** The calls [cleanup] may make for the instance [h]: prints, [stop]
    and [awaitTermination], and of the statements only [USE CATALOG] for
    a catalog of the list, [SHOW DATABASES] and the [DROP] of [db_name]
    in the active catalog. *)
Definition cleanup_may (h : DBAcademyHelper) (e : event) : Prop :=
  match e with
  | EPrint _ | EStop _ | EAwait _ => True
  | ESql (UseCatalog c) => c ∈ catalogs h
  | ESql ShowDatabases => True
  | ESql (DropDatabaseIfExistsCascade oc d) => oc = None /\ d = db_name h
  | _ => False
  end.

(** The calls the reset script may make once it has built the helper
    [DA]: prints, the identity query, [USE CATALOG] for a catalog of the
    list, [SHOW DATABASES], the [DROP] of a database that starts with
    [db_name_prefix] in such a catalog, and the recursive removal of
    [working_dir_prefix]. *)
Definition reset_only (DA : DBAcademyHelper) (e : event) : Prop :=
  match e with
  | EPrint _ => True
  | ESql SelectCurrentUser | ESql ShowDatabases => True
  | ESql (UseCatalog c) => c ∈ catalogs DA
  | ESql (DropDatabaseIfExistsCascade oc d) =>
      exists c, oc = Some c /\ c ∈ catalogs DA
                /\ Str.startswith d (db_name_prefix DA) = true
  | ERm p r => p = working_dir_prefix DA /\ r = true
  | _ => False
  end.


(** A second identity whose name is the sanitized name of [jane]'s. *)
Definition jane_alias : Spark :=
  MkSpark "jane_doe_example_com" (metastore jane) "hive_metastore" "default"
    ∅ ∅ [] ∅ 1700000500 [].

Definition jane_alias_helper (l : option string) (c : string)
  : DBAcademyHelper :=
  match __init__ l c jane_alias with
  | Ok h _ => h
  | Raised _ _ => MkHelper 0 "" None "" [] "" "" None "" "" None
  end.

(** [jane]'s session on an engine that has lost ["hive_metastore"]. *)
Definition jane_no_hive : Spark :=
  set_metastore (delete "hive_metastore" (metastore jane)) jane.

(** ** Strings: basic facts *)

Lemma prefix_append (p s : string) : String.prefix p (p +:+ s) = true.
Proof.
  induction p as [|a p IH]; simpl.
  - by destruct s.
  - destruct (ascii_dec a a); [exact IH | congruence].
Qed.

Lemma non_alnum_is_alnum (c : ascii) :
  Str.class_matches Str.non_alnum c = negb (Str.is_alnum c).
Proof. by destruct c as [[] [] [] [] [] [] [] []]. Qed.

Lemma re_sub_non_alnum_cons (c : ascii) (s : string) :
  Str.re_sub Str.non_alnum "_" (String c s)
  = String (if Str.is_alnum c then c else "_"%char)
           (Str.re_sub Str.non_alnum "_" s).
Proof.
  cbn [Str.re_sub]. rewrite non_alnum_is_alnum.
  by destruct (Str.is_alnum c).
Qed.

Lemma re_sub_non_alnum_length (s : string) :
  String.length (Str.re_sub Str.non_alnum "_" s) = String.length s.
Proof.
  induction s as [|c s IH]; [done|].
  rewrite re_sub_non_alnum_cons. simpl. by rewrite IH.
Qed.

Lemma re_sub_non_alnum_get (s : string) (i : nat) :
  String.get i (Str.re_sub Str.non_alnum "_" s)
  = (fun c => if Str.is_alnum c then c else "_"%char) <$> String.get i s.
Proof.
  revert i. induction s as [|a s IH]; intros i.
  - by destruct i.
  - rewrite re_sub_non_alnum_cons. destruct i as [|i]; [done|]. apply IH.
Qed.

(** ** Construction *)

(** What [__init__] computes, field by field: it always returns, after
    one identity query. *)
Lemma init_spec (les : option string) (cat : string) (w : Spark) :
  exists h,
    __init__ les cat w = Ok h (record (ESql SelectCurrentUser) w)
    /\ start h = clock w
    /\ catalog h = cat
    /\ catalogs h = catalog_list cat
    /\ username h = session_user w
    /\ db_name_prefix h
       = "dbacademy_" +:+ Str.re_sub Str.non_alnum "_" (session_user w)
         +:+ "_ncouc"
    /\ working_dir_prefix h
       = "dbfs:/user/" +:+ session_user w +:+ "/dbacademy/ncouc"
    /\ db_name h
       = match les with
         | Some l =>
             if Str.truthy l
             then db_name_prefix h +:+ "_"
                  +:+ Str.re_sub Str.non_alnum "_" (Str.lower l)
             else db_name_prefix h
         | None => db_name_prefix h
         end
    /\ create_db h = None.
Proof.
  assert (Hc : (if String.eqb cat "hive_metastore"
                then ["hive_metastore"] else [cat; "hive_metastore"])
               = catalog_list cat).
  { unfold catalog_list. destruct (String.eqb_spec cat "hive_metastore");
      case_decide; congruence. }
  unfold __init__, bind, time_time, sql, first_0, ret.
  destruct les as [l|]; [destruct (Str.truthy l)|]; simpl;
    eexists; (split; [reflexivity|]); simpl; rewrite Hc; done.
Qed.

(** C3: for every username, the sanitization done at construction yields
    a string of the same length in which every character outside
    [a-zA-Z0-9] has become ['_'] and every alphanumeric character stands
    unchanged at its position; that string is what [db_name_prefix] is
    built from. *)
Theorem username_sanitized (les : option string) (cat : string) (w : Spark) :
  exists h w',
    __init__ les cat w = Ok h w'
    /\ db_name_prefix h
       = "dbacademy_" +:+ Str.re_sub Str.non_alnum "_" (session_user w)
         +:+ "_ncouc"
    /\ String.length (Str.re_sub Str.non_alnum "_" (session_user w))
       = String.length (session_user w)
    /\ forall i,
         String.get i (Str.re_sub Str.non_alnum "_" (session_user w))
         = (fun c => if Str.is_alnum c then c else "_"%char)
             <$> String.get i (session_user w).
Proof.
  destruct (init_spec les cat w) as (h & Hrun & _ & _ & _ & _ & Hp & _).
  exists h, (record (ESql SelectCurrentUser) w).
  split; [exact Hrun|]. split; [exact Hp|].
  split; [apply re_sub_non_alnum_length|].
  intros i. apply re_sub_non_alnum_get.
Qed.

(** C2: whatever the identity, the catalog and the lesson (absent
    included), the [db_name] computed at construction starts with
    [db_name_prefix]. *)
Theorem db_name_starts_with_prefix
    (les : option string) (cat : string) (w : Spark) :
  exists h w',
    __init__ les cat w = Ok h w'
    /\ Str.startswith (db_name h) (db_name_prefix h) = true.
Proof.
  destruct (init_spec les cat w) as (h & Hrun & _ & _ & _ & _ & _ & _ & Hd & _).
  exists h, (record (ESql SelectCurrentUser) w). split; [exact Hrun|].
  unfold Str.startswith. rewrite Hd.
  assert (Hself : String.prefix (db_name_prefix h) (db_name_prefix h) = true).
  { generalize (db_name_prefix h). intros p.
    induction p as [|a p IH]; simpl; [done|].
    destruct (ascii_dec a a); [exact IH | congruence]. }
  destruct les as [l|]; [destruct (Str.truthy l)|];
    auto using prefix_append.
Qed.

(** C5, as the specification words it, fails: the lesson label is put in
    lower case before it is sanitized, so the label ["Intro"] does not
    give [db_name_prefix + "_" + "Intro"]. *)
Lemma db_name_of_lesson_not_verbatim :
  exists h w',
    __init__ (Some "Intro") "hive_metastore" jane = Ok h w'
    /\ db_name h
       <> db_name_prefix h +:+ "_" +:+ Str.re_sub Str.non_alnum "_" "Intro".
Proof.
  eexists _, _. split; [vm_compute; reflexivity|].
  vm_compute. discriminate.
Qed.

(** C5, amended: for a supplied, non-empty lesson label [l], [db_name] is
    [db_name_prefix + "_" + clean_lesson] where [clean_lesson] is [l] in
    lower case with every non-alphanumeric character replaced by ['_'];
    with no lesson, [db_name] is [db_name_prefix]. *)
Theorem db_name_of_lesson (l : string) (cat : string) (w : Spark) :
  l <> "" ->
  exists h w' h0 w0,
    __init__ (Some l) cat w = Ok h w'
    /\ db_name h
       = db_name_prefix h +:+ "_"
         +:+ Str.re_sub Str.non_alnum "_" (Str.lower l)
    /\ __init__ None cat w = Ok h0 w0
    /\ db_name h0 = db_name_prefix h0.
Proof.
  intros Hl.
  destruct (init_spec (Some l) cat w)
    as (h & Hrun & _ & _ & _ & _ & _ & _ & Hd & _).
  destruct (init_spec None cat w)
    as (h0 & Hrun0 & _ & _ & _ & _ & _ & _ & Hd0 & _).
  exists h, (record (ESql SelectCurrentUser) w),
         h0, (record (ESql SelectCurrentUser) w).
  repeat split; try assumption.
  destruct l; [done | exact Hd].
Qed.

Lemma db_name_of_lesson_witness :
  exists h w' h0 w0,
    __init__ (Some "Intro 1") "main" jane = Ok h w'
    /\ db_name h
       = db_name_prefix h +:+ "_"
         +:+ Str.re_sub Str.non_alnum "_" (Str.lower "Intro 1")
    /\ __init__ None "main" jane = Ok h0 w0
    /\ db_name h0 = db_name_prefix h0.
Proof. apply (db_name_of_lesson "Intro 1" "main" jane). discriminate. Defined.

(** C8: for the identity ["jane.doe@example.com"], no lesson and the
    catalog ["hive_metastore"], construction gives
    [db_name_prefix = db_name = "dbacademy_jane_doe_example_com_ncouc"]
    and the catalog list [["hive_metastore"]]. *)
Theorem jane_doe_example (w : Spark) :
  session_user w = "jane.doe@example.com" ->
  exists h w',
    __init__ None "hive_metastore" w = Ok h w'
    /\ db_name_prefix h = "dbacademy_jane_doe_example_com_ncouc"
    /\ db_name h = "dbacademy_jane_doe_example_com_ncouc"
    /\ catalogs h = ["hive_metastore"].
Proof.
  intros Hu.
  destruct (init_spec None "hive_metastore" w)
    as (h & Hrun & _ & _ & Hc & _ & Hp & _ & Hd & _).
  exists h, (record (ESql SelectCurrentUser) w).
  rewrite Hd, Hp, Hc, Hu. by repeat split.
Qed.

Lemma jane_doe_example_witness :
  exists h w',
    __init__ None "hive_metastore" jane = Ok h w'
    /\ db_name_prefix h = "dbacademy_jane_doe_example_com_ncouc"
    /\ db_name h = "dbacademy_jane_doe_example_com_ncouc"
    /\ catalogs h = ["hive_metastore"].
Proof. apply (jane_doe_example jane). reflexivity. Defined.

(** C9: for every identity, [working_dir_prefix] is
    ["dbfs:/user/" + username + "/dbacademy/ncouc"] over the username as
    the session reports it, not sanitized, while [db_name_prefix] is built
    from the sanitized username. *)
Theorem working_dir_prefix_raw (les : option string) (cat : string) (w : Spark) :
  exists h w',
    __init__ les cat w = Ok h w'
    /\ username h = session_user w
    /\ working_dir_prefix h
       = "dbfs:/user/" +:+ username h +:+ "/dbacademy/ncouc"
    /\ db_name_prefix h
       = "dbacademy_" +:+ Str.re_sub Str.non_alnum "_" (username h)
         +:+ "_ncouc".
Proof.
  destruct (init_spec les cat w) as (h & Hrun & _ & _ & _ & Hu & Hp & Hw & _).
  exists h, (record (ESql SelectCurrentUser) w).
  rewrite Hu. by repeat split.
Qed.

(** ** Running computations *)

Arguments sql : simpl never.
Arguments print : simpl never.
Arguments stream_stop : simpl never.
Arguments stream_awaitTermination : simpl never.

Lemma bind_ok {S A B} (m : M S A) (k : A -> M S B) (s s' : S) (a : A) :
  m s = Ok a s' -> bind m k s = k a s'.
Proof. unfold bind. by intros ->. Qed.

Lemma bind_raised {S A B} (m : M S A) (k : A -> M S B) (s s' : S) (e : exn) :
  m s = Raised e s' -> bind m k s = Raised e s'.
Proof. unfold bind. by intros ->. Qed.

Lemma on_spark_ok {A} (m : M Spark A) (h : DBAcademyHelper) (w w' : Spark) (a : A) :
  m w = Ok a w' -> on_spark m (h, w) = Ok a (h, w').
Proof. unfold on_spark. simpl. by intros ->. Qed.

Lemma on_spark_raised {A} (m : M Spark A) (h : DBAcademyHelper) (w w' : Spark)
    (e : exn) :
  m w = Raised e w' -> on_spark m (h, w) = Raised e (h, w').
Proof. unfold on_spark. simpl. by intros ->. Qed.

Lemma since_app (w w' : Spark) (j : list event) :
  journal w' = journal w ++ j -> since w w' = j.
Proof. unfold since. intros ->. by rewrite drop_app_length. Qed.

Lemma flat_map_ext_elem {X Y} (f g : X -> list Y) (l : list X) :
  (forall x, x ∈ l -> f x = g x) -> flat_map f l = flat_map g l.
Proof.
  induction l as [|x l IH]; intros H; [done|]. simpl.
  rewrite (H x) by left. f_equal. apply IH. intros y Hy. apply H. by right.
Qed.

(** ** What [keeps] a property *)

Section Keeps.
Context {S : Type} (P : S -> Prop).

Lemma keeps_ret {A} (a : A) : keeps P (ret a).
Proof. by intros s. Qed.

Lemma keeps_bind {A B} (m : M S A) (k : A -> M S B) :
  keeps P m -> (forall a, keeps P (k a)) -> keeps P (bind m k).
Proof.
  intros Hm Hk s Hs. unfold bind. specialize (Hm s Hs).
  destruct (m s) as [a s'|e s']; simpl in *; [by apply Hk | done].
Qed.

Lemma keeps_try_except {A} (m h : M S A) :
  keeps P m -> keeps P h -> keeps P (try_except m h).
Proof.
  intros Hm Hh s Hs. unfold try_except. specialize (Hm s Hs).
  destruct (m s) as [a s'|e s']; simpl in *; [done | by apply Hh].
Qed.

Lemma keeps_for_each {X} (l : list X) (body : X -> M S unit) :
  (forall x, keeps P (body x)) -> keeps P (for_each l body).
Proof.
  intros Hb. induction l as [|x l IH]; simpl.
  - apply keeps_ret.
  - apply keeps_bind; [apply Hb | intros _; exact IH].
Qed.

Lemma keeps_for_each_elem {X} (l : list X) (body : X -> M S unit) :
  (forall x, x ∈ l -> keeps P (body x)) -> keeps P (for_each l body).
Proof.
  induction l as [|x l IH]; intros Hb; simpl.
  - apply keeps_ret.
  - apply keeps_bind; [apply Hb; left | intros _].
    apply IH. intros y Hy. apply Hb. by right.
Qed.

End Keeps.

(** A property of the instance alone is kept by every call that only
    touches the session. *)
Lemma keeps_on_spark {A} (Q : DBAcademyHelper -> Prop) (m : M Spark A) :
  keeps (fun s : Env => Q (fst s)) (on_spark m).
Proof.
  intros [h w] Hs. unfold on_spark. simpl in *. by destruct (m w).
Qed.

Lemma keeps_self (P : Env -> Prop) : keeps P self.
Proof. by intros s. Qed.

Lemma keeps_catalogs (cs : list string) (m : method) :
  keeps (fun s : Env => catalogs (fst s) = cs) (call m).
Proof.
  set (Q := fun h : DBAcademyHelper => catalogs h = cs).
  change (keeps (fun s : Env => Q (fst s)) (call m)).
  assert (Hsp : forall A (m : M Spark A),
             keeps (fun s : Env => Q (fst s)) (on_spark m))
    by (intros; apply keeps_on_spark).
  destruct m as [b| |]; simpl.
  - unfold init. apply keeps_bind; [apply Hsp|intros _].
    apply keeps_bind; [by intros [h w]|intros _].
    destruct b; [|apply keeps_ret].
    apply keeps_bind; [apply keeps_self|intros h].
    apply keeps_bind.
    { apply keeps_for_each. intros c.
      repeat (apply keeps_bind; [apply Hsp|intros _]). apply keeps_ret. }
    intros _. repeat (apply keeps_bind; [apply Hsp|intros _]). apply keeps_ret.
  - unfold cleanup. apply keeps_bind; [apply Hsp|intros l].
    apply keeps_bind.
    { apply keeps_for_each. intros s.
      repeat (apply keeps_bind; [apply Hsp|intros _]).
      apply keeps_try_except; [apply Hsp|apply keeps_ret]. }
    intros _. apply keeps_bind; [apply keeps_self|intros h].
    apply keeps_for_each. intros c.
    apply keeps_bind; [apply Hsp|intros _].
    apply keeps_bind; [apply Hsp|intros df].
    destruct (_ =? _); [|apply keeps_ret].
    repeat (apply keeps_bind; [apply Hsp|intros _]). apply keeps_ret.
  - unfold conclude_setup. apply keeps_bind; [apply keeps_self|intros h].
    apply keeps_bind; [apply Hsp|intros _].
    apply keeps_bind; [apply Hsp|intros _].
    apply keeps_bind; [apply Hsp|intros now]. apply Hsp.
Qed.

(** ** What a computation can raise *)

Section RaisesOnly.
Context {S : Type} (E : exn -> Prop).

Lemma raises_only_ret {A} (a : A) : raises_only (S := S) E (ret a).
Proof. intros s e s' H. discriminate H. Qed.

Lemma raises_only_bind {A B} (m : M S A) (k : A -> M S B) :
  raises_only E m -> (forall a, raises_only E (k a)) ->
  raises_only E (bind m k).
Proof.
  intros Hm Hk s e s' H. unfold bind in H.
  destruct (m s) as [a s1|e1 s1] eqn:Hms.
  - by apply (Hk a s1 e s').
  - injection H as <- <-. by apply (Hm s e1 s1).
Qed.

(** A bare [except] lets through what its handler raises, nothing else. *)
Lemma raises_only_try_except {A} (m h : M S A) :
  raises_only E h -> raises_only E (try_except m h).
Proof.
  intros Hh s e s' H. unfold try_except in H.
  destruct (m s) as [a s1|e1 s1]; [discriminate H|].
  by apply (Hh s1 e s').
Qed.

Lemma raises_only_for_each {X} (l : list X) (body : X -> M S unit) :
  (forall x, raises_only E (body x)) -> raises_only E (for_each l body).
Proof.
  intros Hb. induction l as [|x l IH]; simpl.
  - apply raises_only_ret.
  - apply raises_only_bind; [apply Hb | intros _; exact IH].
Qed.

End RaisesOnly.

Lemma raises_only_on_spark {A} (E : exn -> Prop) (m : M Spark A) :
  raises_only E m -> raises_only E (on_spark m).
Proof.
  intros Hm [h w] e s' H. unfold on_spark in H. simpl in H.
  destruct (m w) as [a w1|e1 w1] eqn:Hmw; [discriminate H|].
  injection H as <- <-. by apply (Hm w e1 w1).
Qed.

Lemma sql_raises_only (q : stmt) : raises_only uncaught (sql q).
Proof.
  intros w e w' H. left. exists q. unfold sql in H.
  destruct q; simpl in H; repeat case_decide;
    try destruct (metastore _ !! _); by inversion H.
Qed.

Lemma print_raises_only (E : exn -> Prop) (t : string) : raises_only E (print t).
Proof. intros w e w' H. discriminate H. Qed.

Lemma stream_stop_raises_only (s : Stream) : raises_only uncaught (stream_stop s).
Proof.
  intros w e w' H. right. exists (stream_id s). unfold stream_stop in H.
  destruct (stop_raises s); by inversion H.
Qed.

(** Whatever [cleanup] raises comes from a statement or from a [stop]. *)
Lemma cleanup_raises_only : raises_only uncaught cleanup.
Proof.
  unfold cleanup.
  apply raises_only_bind.
  { apply raises_only_on_spark. intros w e w' H. discriminate H. }
  intros l. apply raises_only_bind.
  { apply raises_only_for_each. intros s.
    apply raises_only_bind;
      [apply raises_only_on_spark, print_raises_only|intros _].
    apply raises_only_bind;
      [apply raises_only_on_spark, stream_stop_raises_only|intros _].
    apply raises_only_try_except, raises_only_ret. }
  intros _. apply raises_only_bind; [intros s e s' H; discriminate H|].
  intros h. apply raises_only_for_each. intros c.
  apply raises_only_bind;
    [apply raises_only_on_spark, sql_raises_only|intros _].
  apply raises_only_bind;
    [apply raises_only_on_spark, sql_raises_only|intros df].
  destruct (_ =? _); [|apply raises_only_ret].
  apply raises_only_bind;
    [apply raises_only_on_spark, print_raises_only|intros _].
  apply raises_only_bind;
    [apply raises_only_on_spark, sql_raises_only|intros _].
  apply raises_only_ret.
Qed.

Lemma catalog_list_NoDup (cat : string) : NoDup (catalog_list cat).
Proof.
  unfold catalog_list. case_decide.
  - apply NoDup_singleton.
  - apply NoDup_cons. split; [|apply NoDup_singleton].
    by intros [?|[]%not_elem_of_nil]%elem_of_cons.
Qed.

(** The catalog list of a new helper has no duplicate. *)
Lemma init_catalogs_NoDup (les : option string) (cat : string) (w w' : Spark)
    (h : DBAcademyHelper) :
  __init__ les cat w = Ok h w' -> NoDup (catalogs h).
Proof.
  intros Hrun. destruct (init_spec les cat w) as (h' & Hrun' & _ & _ & Hc & _).
  rewrite Hrun in Hrun'. injection Hrun' as -> _. rewrite Hc.
  apply catalog_list_NoDup.
Qed.

(** C4: constructed with the catalog ["hive_metastore"] the helper's
    catalog list is [["hive_metastore"]], constructed with any other
    catalog [X] it is [[X; "hive_metastore"]]; whatever calls of [init],
    [cleanup] and [conclude_setup] follow, in whatever session and
    whether they return or raise, the instance still holds that list. *)
Theorem catalog_list_fixed (les : option string) (cat : string) (w : Spark) :
  exists h w',
    __init__ les cat w = Ok h w'
    /\ catalogs h
       = (if decide (cat = "hive_metastore") then ["hive_metastore"]
          else [cat; "hive_metastore"])
    /\ forall (ms : list method) (w1 : Spark),
         catalogs (fst (final (for_each ms call (h, w1)))) = catalogs h.
Proof.
  destruct (init_spec les cat w) as (h & Hrun & _ & _ & Hc & _).
  exists h, (record (ESql SelectCurrentUser) w).
  split; [exact Hrun|]. split; [exact Hc|].
  intros ms w1.
  apply (keeps_for_each (fun s : Env => catalogs (fst s) = catalogs h)
           ms call (keeps_catalogs (catalogs h)) (h, w1)).
  reflexivity.
Qed.

(** ** [init] *)

(** C10: [init(create_db=False)] returns after a single call, the
    clearing of the cache: no SQL statement is sent, the metastore, the
    active catalog and the active database are as before, and so is the
    rest of the session; on the instance only [create_db] is recorded. *)
Theorem init_without_create_db (h : DBAcademyHelper) (w : Spark) :
  exists h' w',
    init false (h, w) = Ok tt (h', w')
    /\ since w w' = [EClearCache]
    /\ sql_of (since w w') = []
    /\ metastore w' = metastore w
    /\ current_catalog w' = current_catalog w
    /\ current_database w' = current_database w
    /\ cache w' = ∅
    /\ (conf w' = conf w /\ streams w' = streams w /\ dbfs w' = dbfs w
        /\ clock w' = clock w /\ session_user w' = session_user w)
    /\ create_db h' = Some false
    /\ (start h' = start h /\ course_name h' = course_name h
        /\ lesson h' = lesson h /\ catalog h' = catalog h
        /\ catalogs h' = catalogs h /\ username h' = username h
        /\ db_name_prefix h' = db_name_prefix h
        /\ source_db_name h' = source_db_name h
        /\ working_dir_prefix h' = working_dir_prefix h
        /\ db_name h' = db_name h).
Proof.
  eexists _, _. split; [reflexivity|]. simpl.
  assert (Hs : since w (set_cache ∅ (record EClearCache w)) = [EClearCache])
    by (by apply since_app).
  rewrite Hs. by repeat split.
Qed.

(** ** [cleanup] *)

Lemma count_databaseName_eq_NoDup (db : string) (l : list string) :
  NoDup l ->
  count_databaseName_eq db l = if decide (db ∈ l) then 1 else 0.
Proof.
  unfold count_databaseName_eq. induction 1 as [|x l Hx Hl IH].
  - by rewrite decide_False by apply not_elem_of_nil.
  - rewrite filter_cons. destruct (decide (x = db)) as [->|Hne].
    + rewrite decide_True by apply list_elem_of_here.
      simpl. rewrite IH. by rewrite decide_False.
    + rewrite IH. destruct (decide (db ∈ l)) as [Hin|Hin].
      * rewrite decide_True; [done | by right].
      * rewrite decide_False; [done|].
        intros [?|?]%elem_of_cons; congruence.
Qed.

Lemma count_databases (db : string) (X : gset string) :
  (count_databaseName_eq db (elements X) =? 1) = bool_decide (db ∈ X).
Proof.
  rewrite count_databaseName_eq_NoDup by apply NoDup_elements.
  destruct (decide (db ∈ elements X)) as [H|H];
    rewrite elem_of_elements in H.
  - by rewrite bool_decide_eq_true_2.
  - by rewrite bool_decide_eq_false_2.
Qed.

Lemma sql_use_catalog (c : string) (w : Spark) :
  c ∈ dom (metastore w) ->
  sql (UseCatalog c) w
  = Ok [] (set_current c "default" (record (ESql (UseCatalog c)) w)).
Proof. intros H. unfold sql. simpl. by rewrite decide_True. Qed.

Lemma sql_use_catalog_missing (c : string) (w : Spark) :
  c ∉ dom (metastore w) ->
  sql (UseCatalog c) w
  = Raised (AnalysisException (UseCatalog c)) (record (ESql (UseCatalog c)) w).
Proof. intros H. unfold sql. simpl. by rewrite decide_False. Qed.

Lemma sql_show_databases (w : Spark) :
  sql ShowDatabases w
  = Ok (elements (databases w (current_catalog w)))
       (record (ESql ShowDatabases) w).
Proof. reflexivity. Qed.

Lemma sql_drop (oc : option string) (d : string) (w : Spark) (dbs : gset string) :
  metastore w !! default (current_catalog w) oc = Some dbs ->
  sql (DropDatabaseIfExistsCascade oc d) w
  = Ok [] (set_metastore
             (<[default (current_catalog w) oc := dbs ∖ {[d]}]> (metastore w))
             (record (ESql (DropDatabaseIfExistsCascade oc d)) w)).
Proof. intros H. unfold sql. simpl. by rewrite H. Qed.

(** The first loop of [cleanup]: it returns whatever [awaitTermination]
    does, provided no [stop] raises. *)
Lemma stop_loop_run (l : list Stream) (h : DBAcademyHelper) (w : Spark) :
  (forall s, s ∈ l -> stop_raises s = false) ->
  exists w',
    for_each l (fun stream =>
      on_spark (print ("Stopping the stream " +:+ dq
                       +:+ str_of_opt (stream_name stream) +:+ dq)) ;;
      on_spark (stream_stop stream) ;;
      try_except (on_spark (stream_awaitTermination stream)) (ret tt)) (h, w)
    = Ok tt (h, w')
    /\ journal w' = journal w ++ flat_map stop_calls l
    /\ streams w' = stop_all l (streams w)
    /\ metastore w' = metastore w.
Proof.
  revert w. induction l as [|s l IH]; intros w Hl.
  - exists w. simpl. by rewrite app_nil_r.
  - assert (Hs : stop_raises s = false) by (apply Hl; left).
    cbn [for_each].
    set (w1 := set_streams (deactivate (stream_id s) <$> streams w)
                 (record (EAwait (stream_id s))
                    (record (EStop (stream_id s))
                       (record (EPrint ("Stopping the stream " +:+ dq
                          +:+ str_of_opt (stream_name s) +:+ dq)) w)))).
    destruct (IH w1) as (w' & Hrun & Hj & Hst & Hm).
    { intros s' Hs'. apply Hl. by right. }
    exists w'. split; [|split; [|split]].
    + rewrite <- Hrun. unfold bind at 1.
      unfold bind at 1, on_spark at 1, print. cbn [fst snd].
      unfold bind at 1, on_spark at 1, stream_stop. cbn [fst snd].
      rewrite Hs.
      unfold try_except, on_spark at 1, stream_awaitTermination.
      cbn [fst snd]. subst w1. destruct (await_raises s); reflexivity.
    + rewrite Hj. subst w1. simpl. by rewrite <- !app_assoc.
    + rewrite Hst. reflexivity.
    + rewrite Hm. reflexivity.
Qed.

Lemma databases_lookup (w : Spark) (c : string) (dbs : gset string) :
  metastore w !! c = Some dbs -> databases w c = dbs.
Proof. unfold databases. by intros ->. Qed.

Lemma cleanup_calls_ext (db : string) (w1 w2 : Spark) (c : string) :
  metastore w1 !! c = metastore w2 !! c ->
  cleanup_calls db w1 c = cleanup_calls db w2 c.
Proof. unfold cleanup_calls, databases. by intros ->. Qed.

(** One round of the second loop of [cleanup], in a catalog that exists. *)
Lemma drop_round_run (db c : string) (h : DBAcademyHelper) (w : Spark)
    (dbs : gset string) :
  metastore w !! c = Some dbs ->
  exists w',
    (on_spark (sql (UseCatalog c)) ;;
     df <- on_spark (sql ShowDatabases) ;;
     if count_databaseName_eq db df =? 1 then
       on_spark (print ("Dropping the database " +:+ dq +:+ c +:+ "."
                        +:+ db +:+ dq)) ;;
       on_spark (sql (DropDatabaseIfExistsCascade None db)) ;;
       ret tt
     else ret tt) (h, w)
    = Ok tt (h, w')
    /\ journal w' = journal w ++ cleanup_calls db w c
    /\ metastore w' = <[c := dbs ∖ {[db]}]> (metastore w)
    /\ streams w' = streams w.
Proof.
  intros Hc.
  assert (Hdom : c ∈ dom (metastore w)) by (apply elem_of_dom; eauto).
  rewrite (bind_ok _ _ _ _ _ (on_spark_ok _ h _ _ _ (sql_use_catalog c w Hdom))).
  rewrite (bind_ok _ _ _ _ _ (on_spark_ok _ h _ _ _ (sql_show_databases _))).
  cbn [current_catalog set_current record].
  set (w2 := record (ESql ShowDatabases) _).
  assert (Hdb : databases (set_current c "default"
                  (record (ESql (UseCatalog c)) w)) c = dbs)
    by (by apply databases_lookup).
  rewrite Hdb, count_databases.
  unfold cleanup_calls. rewrite (databases_lookup w c dbs Hc).
  destruct (decide (db ∈ dbs)) as [Hin|Hin].
  - rewrite bool_decide_eq_true_2 by done.
    rewrite (bind_ok _ _ _ _ _ (on_spark_ok _ h _ _ _ (eq_refl : print _ w2 = Ok tt _))).
    assert (Hc3 : metastore (record (EPrint ("Dropping the database " +:+ dq
                    +:+ c +:+ "." +:+ db +:+ dq)) w2)
                  !! default (current_catalog (record (EPrint
                       ("Dropping the database " +:+ dq +:+ c +:+ "." +:+ db
                        +:+ dq)) w2)) None = Some dbs) by exact Hc.
    rewrite (bind_ok _ _ _ _ _
               (on_spark_ok _ h _ _ _ (sql_drop None db _ dbs Hc3))).
    eexists. split; [reflexivity|]. subst w2. simpl.
    rewrite <- !app_assoc. by repeat split.
  - rewrite bool_decide_eq_false_2 by done.
    exists w2. split; [reflexivity|]. subst w2. simpl.
    rewrite <- !app_assoc. repeat split; try done.
    symmetry. apply insert_id. rewrite Hc. f_equal. symmetry.
    apply difference_disjoint_L, disjoint_singleton_r, Hin.
Qed.

(** The second loop of [cleanup], over distinct catalogs that exist. *)
Lemma drop_loop_run (db : string) (cs : list string) (h : DBAcademyHelper)
    (w : Spark) :
  NoDup cs ->
  (forall c, c ∈ cs -> c ∈ dom (metastore w)) ->
  exists w',
    for_each cs (fun c =>
      on_spark (sql (UseCatalog c)) ;;
      df <- on_spark (sql ShowDatabases) ;;
      if count_databaseName_eq db df =? 1 then
        on_spark (print ("Dropping the database " +:+ dq +:+ c +:+ "."
                         +:+ db +:+ dq)) ;;
        on_spark (sql (DropDatabaseIfExistsCascade None db)) ;;
        ret tt
      else ret tt) (h, w)
    = Ok tt (h, w')
    /\ journal w' = journal w ++ flat_map (cleanup_calls db w) cs
    /\ (forall c, metastore w' !! c
                  = if decide (c ∈ cs)
                    then (fun dbs => dbs ∖ {[db]}) <$> metastore w !! c
                    else metastore w !! c)
    /\ streams w' = streams w.
Proof.
  intros Hnd. revert w. induction Hnd as [|c cs Hc Hnd IH]; intros w Hdom.
  - exists w. simpl. rewrite app_nil_r. by repeat split.
  - destruct (proj1 (elem_of_dom (metastore w) c)) as [dbs Hdbs];
      [apply Hdom; left|].
    destruct (drop_round_run db c h w dbs Hdbs) as (w1 & Hrun1 & Hj1 & Hm1 & Hs1).
    destruct (IH w1) as (w' & Hrun & Hj & Hm & Hs).
    { intros c' Hc'. rewrite Hm1, dom_insert. apply elem_of_union_r.
      apply Hdom. by right. }
    exists w'. split; [|split; [|split]].
    + cbn [for_each]. by rewrite (bind_ok _ _ _ _ _ Hrun1).
    + rewrite Hj, Hj1. cbn [flat_map]. rewrite <- app_assoc. do 2 f_equal.
      apply flat_map_ext_elem. intros c' Hc'.
      apply cleanup_calls_ext. rewrite Hm1, lookup_insert_ne; [done|].
      intros ->. contradiction.
    + intros c'. rewrite Hm, Hm1. destruct (decide (c' = c)) as [->|Hne].
      * rewrite decide_False by done.
        rewrite decide_True by left. by rewrite lookup_insert_eq, Hdbs.
      * rewrite lookup_insert_ne by done.
        destruct (decide (c' ∈ cs)) as [Hin|Hin].
        -- rewrite decide_True; [done | by right].
        -- rewrite decide_False; [done|].
           intros [?|?]%elem_of_cons; contradiction.
    + by rewrite Hs, Hs1.
Qed.

(** [cleanup] as a whole: with distinct catalogs that exist and no [stop]
    that raises, it returns, and the session it leaves is known. *)
Lemma cleanup_run (h : DBAcademyHelper) (w : Spark) :
  NoDup (catalogs h) ->
  (forall c, c ∈ catalogs h -> c ∈ dom (metastore w)) ->
  (forall s, s ∈ streams w -> stream_active s = true -> stop_raises s = false) ->
  exists w',
    cleanup (h, w) = Ok tt (h, w')
    /\ journal w'
       = journal w
         ++ flat_map stop_calls
              (filter (fun s => stream_active s = true) (streams w))
         ++ flat_map (cleanup_calls (db_name h) w) (catalogs h)
    /\ streams w'
       = stop_all (filter (fun s => stream_active s = true) (streams w))
           (streams w)
    /\ (forall c, metastore w' !! c
                  = if decide (c ∈ catalogs h)
                    then (fun dbs => dbs ∖ {[db_name h]}) <$> metastore w !! c
                    else metastore w !! c).
Proof.
  intros Hnd Hdom Hstop.
  set (l := filter (fun s => stream_active s = true) (streams w)).
  destruct (stop_loop_run l h w) as (w1 & Hrun1 & Hj1 & Hs1 & Hm1).
  { intros s [Ha Hs]%list_elem_of_filter. by apply Hstop. }
  destruct (drop_loop_run (db_name h) (catalogs h) h w1 Hnd)
    as (w' & Hrun & Hj & Hm & Hs).
  { intros c Hc. rewrite Hm1. by apply Hdom. }
  exists w'. split; [|split; [|split]].
  - unfold cleanup.
    rewrite (bind_ok _ _ _ _ _
               (on_spark_ok _ h _ _ _ (eq_refl : streams_active w = Ok l w))).
    rewrite (bind_ok _ _ _ _ _ Hrun1).
    rewrite (bind_ok _ _ _ _ _ (eq_refl : self (h, w1) = Ok h (h, w1))).
    exact Hrun.
  - rewrite Hj, Hj1, <- app_assoc. do 2 f_equal.
    apply flat_map_ext_elem. intros c _. apply cleanup_calls_ext.
    by rewrite Hm1.
  - by rewrite Hs, Hs1.
  - intros c. by rewrite Hm, Hm1.
Qed.

(** A query still active once [l] has been stopped was in the registry
    already and is none of [l]. *)
Lemma stop_all_active (l ss : list Stream) (s : Stream) :
  s ∈ stop_all l ss -> stream_active s = true ->
  s ∈ ss /\ stream_id s ∉ stream_id <$> l.
Proof.
  revert ss. induction l as [|a l IH]; intros ss Hin Hact.
  - split; [exact Hin | apply not_elem_of_nil].
  - destruct (IH _ Hin Hact) as [Hs Hl].
    apply list_elem_of_fmap in Hs as (s0 & -> & Hs0).
    unfold deactivate in *. destruct (decide (stream_id s0 = stream_id a)).
    + discriminate Hact.
    + split; [exact Hs0|]. rewrite fmap_cons, not_elem_of_cons. by split.
Qed.

Lemma stop_all_inactive (ss : list Stream) (s : Stream) :
  s ∈ stop_all (filter (fun s => stream_active s = true) ss) ss ->
  stream_active s = false.
Proof.
  intros Hin. destruct (stream_active s) eqn:Hact; [exfalso | done].
  destruct (stop_all_active _ _ _ Hin Hact) as [Hs Hl].
  apply Hl, list_elem_of_fmap. exists s. split; [done|].
  by apply list_elem_of_filter.
Qed.

Lemma sql_of_app (j1 j2 : list event) :
  sql_of (j1 ++ j2) = sql_of j1 ++ sql_of j2.
Proof. apply omap_app. Qed.

Lemma sql_of_stop_calls (l : list Stream) : sql_of (flat_map stop_calls l) = [].
Proof. induction l as [|s l IH]; [done | exact IH]. Qed.

Lemma sql_of_cleanup_calls (db : string) (w : Spark) (cs : list string) :
  sql_of (flat_map (cleanup_calls db w) cs)
  = flat_map (fun c =>
      UseCatalog c :: ShowDatabases
      :: (if decide (db ∈ databases w c)
          then [DropDatabaseIfExistsCascade None db] else [])) cs.
Proof.
  induction cs as [|c cs IH]; [done|].
  cbn [flat_map]. rewrite sql_of_app, IH. f_equal.
  unfold cleanup_calls. by destruct (decide (db ∈ databases w c)).
Qed.

Lemma stop_calls_elem (l : list Stream) (s : Stream) :
  s ∈ l ->
  EStop (stream_id s) ∈ flat_map stop_calls l
  /\ EAwait (stream_id s) ∈ flat_map stop_calls l.
Proof.
  intros Hs. rewrite !list_elem_of_In, !in_flat_map.
  split; exists s; (split; [by apply list_elem_of_In|]); simpl; auto.
Qed.

Lemma cleanup_calls_no_stop (db : string) (w : Spark) (cs : list string)
    (id : nat) :
  EStop id ∉ flat_map (cleanup_calls db w) cs.
Proof.
  rewrite list_elem_of_In, in_flat_map. intros (c & _ & Hc).
  unfold cleanup_calls in Hc.
  destruct (decide (db ∈ databases w c)); simpl in Hc;
    repeat (destruct Hc as [Hc|Hc]; [discriminate|]); exact Hc.
Qed.

Lemma cleanup_calls_use (db : string) (w : Spark) (cs : list string)
    (c : string) :
  c ∈ cs -> ESql (UseCatalog c) ∈ flat_map (cleanup_calls db w) cs.
Proof.
  intros Hc. rewrite list_elem_of_In, in_flat_map.
  exists c. split; [by apply list_elem_of_In | by left].
Qed.

(** C7: in a session where the helper's catalogs exist and no [stop]
    raises, [cleanup] returns; the calls it made split into a first part
    without any SQL statement, in which every query that was active is
    stopped, and a second part without any [stop], whose statements are,
    catalog by catalog, [USE CATALOG], [SHOW DATABASES] and then a
    [DROP DATABASE IF EXISTS db_name CASCADE] exactly when [db_name] was
    a database of that catalog.  Afterwards no query is active and
    [db_name] is gone from each of the catalogs, nothing else. *)
Theorem cleanup_stops_then_drops (h : DBAcademyHelper) (w : Spark) :
  NoDup (catalogs h) ->
  (forall c, c ∈ catalogs h -> c ∈ dom (metastore w)) ->
  (forall s, s ∈ streams w -> stream_active s = true -> stop_raises s = false) ->
  exists w' j1 j2,
    cleanup (h, w) = Ok tt (h, w')
    /\ since w w' = j1 ++ j2
    /\ sql_of j1 = []
    /\ (forall s, s ∈ streams w -> stream_active s = true ->
          EStop (stream_id s) ∈ j1)
    /\ (forall id, EStop id ∉ j2)
    /\ (forall s, s ∈ streams w' -> stream_active s = false)
    /\ sql_of j2
       = flat_map (fun c =>
           UseCatalog c :: ShowDatabases
           :: (if decide (db_name h ∈ databases w c)
               then [DropDatabaseIfExistsCascade None (db_name h)]
               else [])) (catalogs h)
    /\ (forall c, c ∈ catalogs h ->
          databases w' c = databases w c ∖ {[db_name h]}).
Proof.
  intros Hnd Hdom Hstop.
  destruct (cleanup_run h w Hnd Hdom Hstop) as (w' & Hrun & Hj & Hs & Hm).
  exists w', (flat_map stop_calls
                (filter (fun s => stream_active s = true) (streams w))),
         (flat_map (cleanup_calls (db_name h) w) (catalogs h)).
  split; [exact Hrun|]. split; [by apply since_app|].
  split; [apply sql_of_stop_calls|].
  split.
  { intros s Hin Hact. apply stop_calls_elem. by apply list_elem_of_filter. }
  split; [intros id; apply cleanup_calls_no_stop|].
  split.
  { intros s Hin. rewrite Hs in Hin. by apply stop_all_inactive in Hin. }
  split; [apply sql_of_cleanup_calls|].
  intros c Hc. unfold databases. rewrite Hm, decide_True by done.
  destruct (proj1 (elem_of_dom (metastore w) c) (Hdom c Hc)) as [dbs ->].
  reflexivity.
Qed.

Lemma cleanup_stops_then_drops_witness :
  exists w' j1 j2,
    cleanup (jane_helper None "main", jane) = Ok tt (jane_helper None "main", w')
    /\ since jane w' = j1 ++ j2
    /\ sql_of j1 = []
    /\ (forall s, s ∈ streams jane -> stream_active s = true ->
          EStop (stream_id s) ∈ j1)
    /\ (forall id, EStop id ∉ j2)
    /\ (forall s, s ∈ streams w' -> stream_active s = false)
    /\ sql_of j2
       = flat_map (fun c =>
           UseCatalog c :: ShowDatabases
           :: (if decide (db_name (jane_helper None "main") ∈ databases jane c)
               then [DropDatabaseIfExistsCascade None
                       (db_name (jane_helper None "main"))]
               else [])) (catalogs (jane_helper None "main"))
    /\ (forall c, c ∈ catalogs (jane_helper None "main") ->
          databases w' c
          = databases jane c ∖ {[db_name (jane_helper None "main")]}).
Proof.
  apply (cleanup_stops_then_drops (jane_helper None "main") jane).
  - vm_compute. compute_done.
  - apply Forall_forall. vm_compute. compute_done.
  - apply (proj1 (Forall_forall
             (fun s => stream_active s = true -> stop_raises s = false)
             (streams jane))).
    vm_compute. compute_done.
Defined.

(** C6: [awaitTermination] raises on a query whose termination failed,
    and no such error leaves [cleanup]: whatever [cleanup] raises, in any
    session, is the failure of a statement or of a [stop].  With the
    helper's catalogs in place and no [stop] that times out, and whatever
    the queries do when awaited, [cleanup] returns: every query that was
    active is stopped and awaited, every catalog is visited, and
    [db_name] is in none of them afterwards. *)
Theorem cleanup_buries_await_errors (h : DBAcademyHelper) (w : Spark) :
  (forall s w0, await_raises s = true ->
     stream_awaitTermination s w0
     = Raised (StreamingQueryException (stream_id s))
              (record (EAwait (stream_id s)) w0))
  /\ (forall e s', cleanup (h, w) = Raised e s' ->
        uncaught e /\ forall id, e <> StreamingQueryException id)
  /\ (NoDup (catalogs h) ->
      (forall c, c ∈ catalogs h -> c ∈ dom (metastore w)) ->
      (forall s, s ∈ streams w -> stream_active s = true ->
         stop_raises s = false) ->
      exists w',
        cleanup (h, w) = Ok tt (h, w')
        /\ (forall s, s ∈ streams w -> stream_active s = true ->
              EStop (stream_id s) ∈ since w w'
              /\ EAwait (stream_id s) ∈ since w w')
        /\ (forall c, c ∈ catalogs h ->
              ESql (UseCatalog c) ∈ since w w'
              /\ db_name h ∉ databases w' c)).
Proof.
  split; [|split].
  { intros s w0 Ha. unfold stream_awaitTermination. by rewrite Ha. }
  { intros e s' H. pose proof (cleanup_raises_only _ _ _ H) as He.
    split; [exact He|]. intros id ->.
    destruct He as [[q [=]]|[id' [=]]]. }
  intros Hnd Hdom Hstop.
  destruct (cleanup_run h w Hnd Hdom Hstop) as (w' & Hrun & Hj & Hs & Hm).
  exists w'. split; [exact Hrun|].
  rewrite (since_app _ _ _ Hj). split.
  - intros s Hin Hact.
    destruct (stop_calls_elem
                (filter (fun s => stream_active s = true) (streams w)) s)
      as [H1 H2]; [by apply list_elem_of_filter|].
    split; apply elem_of_app; by left.
  - intros c Hc. split.
    + apply elem_of_app. right. by apply cleanup_calls_use.
    + unfold databases. rewrite Hm, decide_True by done.
      destruct (metastore w !! c) as [dbs|]; simpl.
      * rewrite elem_of_difference, elem_of_singleton. tauto.
      * apply not_elem_of_empty.
Qed.

Lemma cleanup_buries_await_errors_witness :
  Exists (fun s => stream_active s = true /\ await_raises s = true)
    (streams jane)
  /\ exists w',
       cleanup (jane_helper None "main", jane)
       = Ok tt (jane_helper None "main", w')
       /\ (forall s, s ∈ streams jane -> stream_active s = true ->
             EStop (stream_id s) ∈ since jane w'
             /\ EAwait (stream_id s) ∈ since jane w')
       /\ (forall c, c ∈ catalogs (jane_helper None "main") ->
             ESql (UseCatalog c) ∈ since jane w'
             /\ db_name (jane_helper None "main") ∉ databases w' c).
Proof.
  split; [by left|].
  apply (proj2 (proj2
           (cleanup_buries_await_errors (jane_helper None "main") jane))).
  - vm_compute. compute_done.
  - apply Forall_forall. vm_compute. compute_done.
  - apply (proj1 (Forall_forall
             (fun s => stream_active s = true -> stop_raises s = false)
             (streams jane))).
    vm_compute. compute_done.
Defined.

(** ** The reset script *)

Lemma sql_select_current_user (w : Spark) :
  sql SelectCurrentUser w
  = Ok [session_user w] (record (ESql SelectCurrentUser) w).
Proof. reflexivity. Qed.

(** The inner loop, over the rows listed for a catalog that exists. *)
Lemma reset_rows_run (pfx c : string) (rows : list string) (w : Spark)
    (dbs : gset string) :
  metastore w !! c = Some dbs ->
  exists w',
    for_each rows (fun row =>
      let db_name := row in
      if Str.startswith db_name pfx then
        print (" - dropping database " +:+ c +:+ "." +:+ db_name) ;;
        sql (DropDatabaseIfExistsCascade (Some c) db_name) ;;
        ret tt
      else ret tt) w
    = Ok tt w'
    /\ journal w' = journal w ++ flat_map (reset_row_calls pfx c) rows
    /\ metastore w'
       = <[c := dbs ∖ list_to_set
                      (filter (fun d => Str.startswith d pfx = true) rows)]>
           (metastore w).
Proof.
  revert w dbs. induction rows as [|row rows IH]; intros w dbs Hc.
  - exists w. simpl. rewrite app_nil_r. repeat split.
    symmetry. apply insert_id. rewrite Hc. f_equal.
    change (dbs = dbs ∖ list_to_set []). simpl. by rewrite difference_empty_L.
  - cbn [for_each flat_map]. unfold reset_row_calls at 1.
    rewrite filter_cons. unfold bind at 1. cbn beta zeta.
    destruct (Str.startswith row pfx) eqn:Hp.
    + destruct (decide (true = true)) as [_|?]; [|done].
      set (w1 := record (EPrint (" - dropping database " +:+ c +:+ "."
                                 +:+ row)) w).
      assert (Hc1 : metastore w1 !! default (current_catalog w1) (Some c)
                    = Some dbs) by exact Hc.
      pose proof (sql_drop (Some c) row w1 dbs Hc1) as Hdrop.
      cbn [default] in Hdrop.
      destruct (IH (set_metastore (<[c := dbs ∖ {[row]}]> (metastore w1))
                      (record (ESql (DropDatabaseIfExistsCascade (Some c) row))
                         w1)) (dbs ∖ {[row]}))
        as (w' & Hrun & Hj & Hm).
      { simpl. apply lookup_insert_eq. }
      exists w'. split; [|split].
      * rewrite (bind_ok _ _ _ _ _ (eq_refl : print _ w = Ok tt w1)).
        rewrite (bind_ok _ _ _ _ _ Hdrop). exact Hrun.
      * rewrite Hj. subst w1. simpl. by rewrite <- !app_assoc.
      * rewrite Hm. subst w1. simpl. rewrite insert_insert_eq. f_equal.
        apply set_eq. intros d.
        rewrite !elem_of_difference, elem_of_union, elem_of_singleton. tauto.
    + destruct (decide (false = true)) as [?|_]; [done|].
      destruct (IH w dbs Hc) as (w' & Hrun & Hj & Hm).
      exists w'. split; [exact Hrun|]. split; [exact Hj | exact Hm].
Qed.

Lemma reset_calls_ext (pfx : string) (w1 w2 : Spark) (c : string) :
  metastore w1 !! c = metastore w2 !! c ->
  reset_calls pfx w1 c = reset_calls pfx w2 c.
Proof. unfold reset_calls, databases. by intros ->. Qed.

Lemma prefixed_elements (pfx : string) (dbs : gset string) :
  list_to_set (filter (fun d => Str.startswith d pfx = true) (elements dbs))
  = prefixed pfx dbs.
Proof.
  apply set_eq. intros d. unfold prefixed.
  rewrite elem_of_list_to_set, list_elem_of_filter, elem_of_elements,
    elem_of_filter. done.
Qed.

(** One round of the outer loop, in a catalog that exists. *)
Lemma reset_round_run (pfx c : string) (w : Spark) (dbs : gset string) :
  metastore w !! c = Some dbs ->
  exists w',
    (print ("Processing the catalog " +:+ c) ;;
     sql (UseCatalog c) ;;
     rows <- sql ShowDatabases ;;
     for_each rows (fun row =>
       let db_name := row in
       if Str.startswith db_name pfx then
         print (" - dropping database " +:+ c +:+ "." +:+ db_name) ;;
         sql (DropDatabaseIfExistsCascade (Some c) db_name) ;;
         ret tt
       else ret tt)) w
    = Ok tt w'
    /\ journal w' = journal w ++ reset_calls pfx w c
    /\ metastore w' = <[c := dbs ∖ prefixed pfx dbs]> (metastore w).
Proof.
  intros Hc.
  set (w1 := record (EPrint ("Processing the catalog " +:+ c)) w).
  assert (Hdom : c ∈ dom (metastore w1)) by (apply elem_of_dom; eauto).
  set (w3 := record (ESql ShowDatabases)
               (set_current c "default" (record (ESql (UseCatalog c)) w1))).
  destruct (reset_rows_run pfx c (elements dbs) w3 dbs Hc)
    as (w' & Hrun & Hj & Hm).
  exists w'. split; [|split].
  - rewrite (bind_ok _ _ _ _ _ (eq_refl : print _ w = Ok tt w1)).
    rewrite (bind_ok _ _ _ _ _ (sql_use_catalog c w1 Hdom)).
    rewrite (bind_ok _ _ _ _ _ (sql_show_databases _)).
    cbn [current_catalog set_current].
    assert (Hdb : databases (set_current c "default"
                    (record (ESql (UseCatalog c)) w1)) c = dbs)
      by (by apply databases_lookup).
    rewrite Hdb. exact Hrun.
  - rewrite Hj. unfold reset_calls. rewrite (databases_lookup w c dbs Hc).
    subst w3 w1. simpl. by rewrite <- !app_assoc.
  - rewrite Hm, prefixed_elements. reflexivity.
Qed.

(** The outer loop, over distinct catalogs that exist. *)
Lemma reset_loop_run (pfx : string) (cs : list string) (w : Spark) :
  NoDup cs ->
  (forall c, c ∈ cs -> c ∈ dom (metastore w)) ->
  exists w',
    for_each cs (fun catalog =>
      print ("Processing the catalog " +:+ catalog) ;;
      sql (UseCatalog catalog) ;;
      rows <- sql ShowDatabases ;;
      for_each rows (fun row =>
        let db_name := row in
        if Str.startswith db_name pfx then
          print (" - dropping database " +:+ catalog +:+ "." +:+ db_name) ;;
          sql (DropDatabaseIfExistsCascade (Some catalog) db_name) ;;
          ret tt
        else ret tt)) w
    = Ok tt w'
    /\ journal w' = journal w ++ flat_map (reset_calls pfx w) cs
    /\ (forall c, metastore w' !! c
                  = if decide (c ∈ cs)
                    then (fun dbs => dbs ∖ prefixed pfx dbs) <$> metastore w !! c
                    else metastore w !! c).
Proof.
  intros Hnd. revert w. induction Hnd as [|c cs Hc Hnd IH]; intros w Hdom.
  - exists w. simpl. rewrite app_nil_r. by repeat split.
  - destruct (proj1 (elem_of_dom (metastore w) c)) as [dbs Hdbs];
      [apply Hdom; left|].
    destruct (reset_round_run pfx c w dbs Hdbs) as (w1 & Hrun1 & Hj1 & Hm1).
    destruct (IH w1) as (w' & Hrun & Hj & Hm).
    { intros c' Hc'. rewrite Hm1, dom_insert. apply elem_of_union_r.
      apply Hdom. by right. }
    exists w'. split; [|split].
    + cbn [for_each]. by rewrite (bind_ok _ _ _ _ _ Hrun1).
    + rewrite Hj, Hj1. cbn [flat_map]. rewrite <- app_assoc. do 2 f_equal.
      apply flat_map_ext_elem. intros c' Hc'.
      apply reset_calls_ext. rewrite Hm1, lookup_insert_ne; [done|].
      intros ->. contradiction.
    + intros c'. rewrite Hm, Hm1. destruct (decide (c' = c)) as [->|Hne].
      * rewrite decide_False by done.
        rewrite decide_True by left. by rewrite lookup_insert_eq, Hdbs.
      * rewrite lookup_insert_ne by done.
        destruct (decide (c' ∈ cs)) as [Hin|Hin].
        -- rewrite decide_True; [done | by right].
        -- rewrite decide_False; [done|].
           intros [?|?]%elem_of_cons; contradiction.
Qed.

Lemma fs_rm_recursive (path : string) (w : Spark) :
  exists b f,
    fs_rm path true w = Ok b (set_dbfs f (record (ERm path true) w)).
Proof. by eexists _, _. Qed.

(** Which [DROP] statements are among the calls of the loop. *)
Lemma reset_calls_drop (pfx : string) (w : Spark) (cs : list string)
    (oc : option string) (d : string) :
  ESql (DropDatabaseIfExistsCascade oc d) ∈ flat_map (reset_calls pfx w) cs
  <-> exists c, oc = Some c /\ c ∈ cs /\ d ∈ databases w c
                /\ Str.startswith d pfx = true.
Proof.
  rewrite list_elem_of_In, in_flat_map. split.
  - intros (c & Hc%list_elem_of_In & Hin). unfold reset_calls in Hin.
    repeat (destruct Hin as [Hin|Hin]; [discriminate|]).
    apply in_flat_map in Hin as (row & Hrow%list_elem_of_In & Hin).
    apply elem_of_elements in Hrow. unfold reset_row_calls in Hin.
    destruct (Str.startswith row pfx) eqn:Hp; [|done].
    destruct Hin as [Hin|[Hin|[]]]; [discriminate|].
    injection Hin as <- <-. by exists c.
  - intros (c & -> & Hc & Hd & Hp). exists c.
    split; [by apply list_elem_of_In|].
    unfold reset_calls. do 3 right. apply in_flat_map. exists d.
    split; [by apply list_elem_of_In, elem_of_elements|].
    unfold reset_row_calls. rewrite Hp. right. by left.
Qed.

(** The reset script as a whole, when the catalogs of the helper exist:
    it returns, and the calls it made and the metastore it leaves are
    known. *)
Lemma reset_script_run (cat : string) (w : Spark) :
  (forall c, c ∈ catalog_list cat -> c ∈ dom (metastore w)) ->
  exists DA w' b,
    __init__ None cat w = Ok DA (record (ESql SelectCurrentUser) w)
    /\ catalogs DA = catalog_list cat
    /\ reset_script cat w = Ok tt w'
    /\ since w w'
       = [ESql SelectCurrentUser; ESql SelectCurrentUser]
         ++ flat_map (reset_calls (db_name_prefix DA) w) (catalogs DA)
         ++ [ ERm (working_dir_prefix DA) true;
              EPrint (nl +:+ "Deleted " +:+ working_dir_prefix DA +:+ ": "
                      +:+ str_of_bool b);
              EPrint (nl +:+ "Course environment succesfully reset") ]
    /\ (forall c, metastore w' !! c
                  = if decide (c ∈ catalogs DA)
                    then (fun dbs => dbs ∖ prefixed (db_name_prefix DA) dbs)
                           <$> metastore w !! c
                    else metastore w !! c).
Proof.
  intros Hdom.
  destruct (init_spec None cat w) as (DA & Hrun0 & _ & _ & Hcs & _).
  set (w0 := record (ESql SelectCurrentUser) w) in *.
  set (w00 := record (ESql SelectCurrentUser) w0).
  destruct (reset_loop_run (db_name_prefix DA) (catalogs DA) w00)
    as (w1 & Hrun1 & Hj1 & Hm1).
  { rewrite Hcs. apply catalog_list_NoDup. }
  { intros c Hc. apply Hdom. by rewrite <- Hcs. }
  destruct (fs_rm_recursive (working_dir_prefix DA) w1) as (b & f & Hrm).
  eexists DA, _, b. split; [exact Hrun0|]. split; [exact Hcs|].
  split; [|split].
  - unfold reset_script.
    rewrite (bind_ok _ _ _ _ _ Hrun0). cbn zeta.
    rewrite (bind_ok _ _ _ _ _ (sql_select_current_user w0)).
    rewrite (bind_ok _ _ _ _ _
               (eq_refl : first_0 [session_user w0] w00
                          = Ok (session_user w0) w00)).
    rewrite (bind_ok _ _ _ _ _ Hrun1).
    rewrite (bind_ok _ _ _ _ _ Hrm).
    rewrite (bind_ok _ _ _ _ _ (eq_refl : print _ _ = Ok tt _)).
    reflexivity.
  - apply since_app. simpl. rewrite Hj1. subst w00 w0. simpl.
    rewrite <- !app_assoc. reflexivity.
  - intros c. simpl. by rewrite Hm1.
Qed.

(** *** What the script never sends *)

Section ResetSafe.
Context (pfx : string) (cs : list string) (w0 : Spark).

(** Since [w0], only calls that [reset_may] allows were made. *)
Let safe (w : Spark) : Prop :=
  exists j, journal w = journal w0 ++ j /\ Forall (reset_may pfx cs) j.

Lemma keeps_safe_calls {A} (m : M Spark A) :
  (forall w, exists j, journal (final (m w)) = journal w ++ j
                       /\ Forall (reset_may pfx cs) j) ->
  keeps safe m.
Proof.
  intros Hm w (j & Hj & Hall). destruct (Hm w) as (j' & Hj' & Hall').
  exists (j ++ j'). split; [by rewrite Hj', Hj, app_assoc|].
  by apply Forall_app.
Qed.

Lemma keeps_safe_print (t : string) : keeps safe (print t).
Proof.
  apply keeps_safe_calls. intros w. exists [EPrint t].
  split; [done | by repeat constructor].
Qed.

Lemma keeps_safe_sql (q : stmt) : reset_may pfx cs (ESql q) -> keeps safe (sql q).
Proof.
  intros Hq. apply keeps_safe_calls. intros w. exists [ESql q].
  split; [|by repeat constructor].
  unfold sql. destruct q; simpl; repeat case_decide;
    try destruct (metastore _ !! _); done.
Qed.

Lemma keeps_safe_fs_rm (path : string) (r : bool) : keeps safe (fs_rm path r).
Proof.
  apply keeps_safe_calls. intros w. exists [ERm path r].
  split; [|by repeat constructor].
  unfold fs_rm. simpl. by destruct (r || _).
Qed.

Lemma keeps_safe_first_0 (df : DataFrame) : keeps safe (first_0 df).
Proof. intros w Hw. by destruct df. Qed.

(** The loop of the script, whether it completes or not. *)
Lemma keeps_safe_loop :
  keeps safe
    (for_each cs (fun catalog =>
       print ("Processing the catalog " +:+ catalog) ;;
       sql (UseCatalog catalog) ;;
       rows <- sql ShowDatabases ;;
       for_each rows (fun row =>
         let db_name := row in
         if Str.startswith db_name pfx then
           print (" - dropping database " +:+ catalog +:+ "." +:+ db_name) ;;
           sql (DropDatabaseIfExistsCascade (Some catalog) db_name) ;;
           ret tt
         else ret tt))).
Proof.
  apply keeps_for_each_elem. intros c Hc.
  apply keeps_bind; [apply keeps_safe_print|intros _].
  apply keeps_bind; [by apply keeps_safe_sql|intros _].
  apply keeps_bind; [by apply keeps_safe_sql|intros rows].
  apply keeps_for_each. intros row. cbn zeta.
  destruct (Str.startswith row pfx) eqn:Hp; [|apply keeps_ret].
  apply keeps_bind; [apply keeps_safe_print|intros _].
  apply keeps_bind; [|intros _; apply keeps_ret].
  apply keeps_safe_sql. by exists c.
Qed.

End ResetSafe.

(** Returning or raising, the script sends no [DROP] but for a database
    that starts with the helper's prefix, in a catalog of its list. *)
Lemma reset_script_safe (cat : string) (w : Spark) (DA : DBAcademyHelper)
    (w0 : Spark) :
  __init__ None cat w = Ok DA w0 ->
  Forall (reset_may (db_name_prefix DA) (catalogs DA))
    (since w (final (reset_script cat w))).
Proof.
  intros Hrun0.
  destruct (init_spec None cat w) as (DA' & Hrun0' & _).
  rewrite Hrun0 in Hrun0'. injection Hrun0' as <- ->.
  set (pfx := db_name_prefix DA). set (cs := catalogs DA).
  set (safe := fun w1 : Spark =>
         exists j, journal w1 = journal w ++ j /\ Forall (reset_may pfx cs) j).
  assert (Hsafe : safe (final (reset_script cat w))).
  { unfold reset_script. rewrite (bind_ok _ _ _ _ _ Hrun0). cbn zeta.
    match goal with
    | |- safe (final (?m ?s)) => enough (Hk : keeps safe m)
    end.
    { apply Hk. exists [ESql SelectCurrentUser].
      split; [done | by repeat constructor]. }
    apply keeps_bind; [by apply keeps_safe_sql|intros df].
    apply keeps_bind; [apply keeps_safe_first_0|intros u].
    apply keeps_bind; [apply keeps_safe_loop|intros _].
    apply keeps_bind; [apply keeps_safe_fs_rm|intros b].
    apply keeps_bind; [apply keeps_safe_print|intros _].
    apply keeps_safe_print. }
  destruct Hsafe as (j & Hj & Hall). by rewrite (since_app _ _ _ Hj).
Qed.

(** C1: whether the reset script returns or raises, every [DROP] it
    sends is a [DROP DATABASE IF EXISTS c.d CASCADE] with [c] in the
    helper's catalog list and [d] starting with the helper's
    [db_name_prefix]: none is sent for a database that does not start
    with it.  With the catalogs of the list in place the script returns,
    and such a [DROP] is among its calls exactly when [d] was a database
    of [c]; in each catalog of the list the databases left are those that
    were there and do not start with [db_name_prefix], and every other
    catalog is as it was. *)
Theorem reset_drops_exactly_prefixed (cat : string) (w : Spark) :
  exists DA w0,
    __init__ None cat w = Ok DA w0
    /\ (forall oc d,
          ESql (DropDatabaseIfExistsCascade oc d)
            ∈ since w (final (reset_script cat w)) ->
          exists c, oc = Some c /\ c ∈ catalogs DA
                    /\ Str.startswith d (db_name_prefix DA) = true)
    /\ ((forall c, c ∈ catalogs DA -> c ∈ dom (metastore w)) ->
        exists w',
          reset_script cat w = Ok tt w'
          /\ (forall c d,
                ESql (DropDatabaseIfExistsCascade (Some c) d) ∈ since w w'
                <-> c ∈ catalogs DA /\ d ∈ databases w c
                    /\ Str.startswith d (db_name_prefix DA) = true)
          /\ (forall c d, c ∈ catalogs DA ->
                d ∈ databases w' c
                <-> d ∈ databases w c
                    /\ Str.startswith d (db_name_prefix DA) = false)
          /\ (forall c, c ∉ catalogs DA ->
                metastore w' !! c = metastore w !! c)).
Proof.
  destruct (init_spec None cat w) as (DA & Hrun0 & _ & _ & Hcs & _).
  exists DA, (record (ESql SelectCurrentUser) w).
  split; [exact Hrun0|]. split.
  { intros oc d Hin.
    pose proof (reset_script_safe cat w DA _ Hrun0) as Hall.
    rewrite Forall_forall in Hall. exact (Hall _ Hin). }
  intros Hdom.
  destruct (reset_script_run cat w)
    as (DA' & w' & b & Hrun0' & _ & Hrun & Hj & Hm).
  { intros c Hc. apply Hdom. by rewrite Hcs. }
  rewrite Hrun0 in Hrun0'. injection Hrun0' as <-.
  exists w'. split; [exact Hrun|].
  assert (Hdrop : forall oc d,
    ESql (DropDatabaseIfExistsCascade oc d) ∈ since w w'
    <-> ESql (DropDatabaseIfExistsCascade oc d)
          ∈ flat_map (reset_calls (db_name_prefix DA) w) (catalogs DA)).
  { intros oc d. rewrite Hj.
    rewrite !elem_of_app, !elem_of_cons, !elem_of_nil.
    split; [|tauto].
    intros [[?|[?|[]]]|[?|[?|[?|[?|[]]]]]]; (discriminate || done). }
  split; [|split].
  - intros c d. rewrite Hdrop, reset_calls_drop. split.
    + by intros (c' & [= <-] & ?).
    + intros ?. by exists c.
  - intros c d Hc. unfold databases. rewrite Hm, decide_True by done.
    destruct (metastore w !! c) as [dbs|]; simpl.
    + unfold prefixed. rewrite elem_of_difference, elem_of_filter.
      destruct (Str.startswith d (db_name_prefix DA)).
      * split; [intros [H1 H2]; exfalso; by apply H2 | intros [_ [=]]].
      * split; [by intros [H1 _]|].
        intros [H1 _]. split; [done | intros [[=] _]].
    + rewrite elem_of_empty. tauto.
  - intros c Hc. by rewrite Hm, decide_False.
Qed.

Lemma reset_drops_exactly_prefixed_witness :
  exists DA w0 w',
    __init__ None "main" jane = Ok DA w0
    /\ reset_script "main" jane = Ok tt w'
    /\ (forall c d,
          ESql (DropDatabaseIfExistsCascade (Some c) d) ∈ since jane w'
          <-> c ∈ catalogs DA /\ d ∈ databases jane c
              /\ Str.startswith d (db_name_prefix DA) = true)
    /\ (forall c d, c ∈ catalogs DA ->
          d ∈ databases w' c
          <-> d ∈ databases jane c
              /\ Str.startswith d (db_name_prefix DA) = false)
    /\ (forall c, c ∉ catalogs DA -> metastore w' !! c = metastore jane !! c).
Proof.
  destruct (reset_drops_exactly_prefixed "main" jane)
    as (DA & w0 & Hinit & _ & Hrun).
  destruct Hrun as (w' & Hrun).
  - vm_compute in Hinit. injection Hinit as <- <-.
    apply Forall_forall. vm_compute. compute_done.
  - exists DA, w0, w'. split; [exact Hinit | exact Hrun].
Defined.

(** ** The sample session, evaluated *)

(** An empty lesson label counts as no label. *)
Example empty_lesson_is_no_lesson :
  db_name (jane_helper (Some "") "main") = db_name_prefix (jane_helper None "main")
  /\ lesson (jane_helper (Some "") "main") = Some "".
Proof. by vm_compute. Qed.

Example lesson_label_lowered :
  db_name (jane_helper (Some "Intro 1") "main")
  = "dbacademy_jane_doe_example_com_ncouc_intro_1"
  /\ lesson (jane_helper (Some "Intro 1") "main") = Some "intro 1".
Proof. by vm_compute. Qed.

Example working_dir_keeps_punctuation :
  working_dir_prefix (jane_helper None "main")
  = "dbfs:/user/jane.doe@example.com/dbacademy/ncouc".
Proof. by vm_compute. Qed.

(** Errors of the engine are not caught: [cleanup] on a catalog the
    metastore does not know raises, after the queries were stopped. *)
Example cleanup_missing_catalog_raises :
  exists w',
    cleanup (jane_helper None "nosuch", jane)
    = Raised (AnalysisException (UseCatalog "nosuch"))
             (jane_helper None "nosuch", w')
    /\ sql_of (since jane w') = [UseCatalog "nosuch"]
    /\ Forall (fun s => stream_active s = false) (streams w').
Proof.
  eexists. split; [vm_compute; reflexivity|].
  split; [by vm_compute|]. vm_compute. compute_done.
Qed.

(** Only [awaitTermination] is guarded: a [stop] that raises ends
    [cleanup] at once. *)
Example cleanup_stop_raises :
  exists w',
    cleanup (jane_helper None "main",
             set_streams [MkStream 7 (Some "stuck") true true false] jane)
    = Raised (TimeoutException 7) (jane_helper None "main", w')
    /\ sql_of (since jane w') = [].
Proof. eexists. split; [vm_compute; reflexivity|]. by vm_compute. Qed.

(** [init()] creates the database in every catalog of the list and makes
    the helper's catalog and database the active ones. *)
Example init_creates_and_selects :
  exists h' w',
    init true (jane_helper (Some "Intro") "main", jane) = Ok tt (h', w')
    /\ sql_of (since jane w')
       = [ CreateDatabaseIfNotExists "main"
             "dbacademy_jane_doe_example_com_ncouc_intro";
           CreateDatabaseIfNotExists "hive_metastore"
             "dbacademy_jane_doe_example_com_ncouc_intro";
           UseCatalog "main";
           UseDatabase "dbacademy_jane_doe_example_com_ncouc_intro" ]
    /\ current_catalog w' = "main"
    /\ current_database w' = "dbacademy_jane_doe_example_com_ncouc_intro"
    /\ create_db h' = Some true.
Proof. eexists _, _. split; [vm_compute; reflexivity|]. by vm_compute. Qed.

(** ** Names: what sanitizing and lower-casing give *)

Lemma lower_char_idem (c : ascii) :
  Str.lower_char (Str.lower_char c) = Str.lower_char c.
Proof. by destruct c as [[] [] [] [] [] [] [] []]. Qed.

Lemma lower_idem (s : string) : Str.lower (Str.lower s) = Str.lower s.
Proof.
  induction s as [|c s IH]; [done|]. simpl. by rewrite lower_char_idem, IH.
Qed.

Lemma truthy_lower (s : string) : Str.truthy (Str.lower s) = Str.truthy s.
Proof. by destruct s. Qed.

Lemma is_alnum_underscore : Str.is_alnum "_" = false.
Proof. reflexivity. Qed.

Lemma re_sub_non_alnum_idem (s : string) :
  Str.re_sub Str.non_alnum "_" (Str.re_sub Str.non_alnum "_" s)
  = Str.re_sub Str.non_alnum "_" s.
Proof.
  induction s as [|c s IH]; [done|].
  rewrite !re_sub_non_alnum_cons, IH.
  destruct (Str.is_alnum c) eqn:E; [by rewrite E|].
  by rewrite is_alnum_underscore.
Qed.

Lemma list_ascii_of_append (a b : string) :
  list_ascii_of_string (a +:+ b)
  = list_ascii_of_string a ++ list_ascii_of_string b.
Proof. induction a as [|c a IH]; [done|]. simpl. by rewrite IH. Qed.

Lemma re_sub_non_alnum_name_chars (s : string) :
  Forall (fun c => name_char c = true)
    (list_ascii_of_string (Str.re_sub Str.non_alnum "_" s)).
Proof.
  induction s as [|c s IH]; [constructor|].
  rewrite re_sub_non_alnum_cons. simpl. constructor; [|exact IH].
  unfold name_char. destruct (Str.is_alnum c) eqn:E; [by rewrite E | done].
Qed.

(** Every character of [db_name_prefix] and of [db_name] is a letter, a
    digit or an underscore, whatever the identity and the lesson label
    are made of: the names can stand unquoted in the statements and
    inside the quotes of the [databaseName == '...'] filter. *)
Theorem db_name_is_plain (les : option string) (cat : string) (w : Spark) :
  exists h w',
    __init__ les cat w = Ok h w'
    /\ Forall (fun c => name_char c = true)
         (list_ascii_of_string (db_name_prefix h))
    /\ Forall (fun c => name_char c = true)
         (list_ascii_of_string (db_name h)).
Proof.
  destruct (init_spec les cat w)
    as (h & Hrun & _ & _ & _ & _ & Hp & _ & Hd & _).
  exists h, (record (ESql SelectCurrentUser) w). split; [exact Hrun|].
  assert (Hpre : Forall (fun c => name_char c = true)
                   (list_ascii_of_string (db_name_prefix h))).
  { rewrite Hp, !list_ascii_of_append. repeat apply Forall_app_2.
    - by repeat constructor.
    - apply re_sub_non_alnum_name_chars.
    - by repeat constructor. }
  split; [exact Hpre|]. rewrite Hd.
  destruct les as [l|]; [destruct (Str.truthy l)|]; try exact Hpre.
  rewrite !list_ascii_of_append. repeat apply Forall_app_2.
  - exact Hpre.
  - by repeat constructor.
  - apply re_sub_non_alnum_name_chars.
Qed.

(** A helper can be built again from what it holds: constructing with
    the [lesson] and the [catalog] of an instance, in any session of the
    same identity, gives the same names, catalog list, working directory
    and lesson, although [lesson] was put in lower case the first time. *)
Theorem init_from_own_attributes
    (les : option string) (cat : string) (w w' w2 : Spark) (h : DBAcademyHelper) :
  __init__ les cat w = Ok h w' ->
  session_user w2 = session_user w ->
  exists h2 w2',
    __init__ (lesson h) (catalog h) w2 = Ok h2 w2'
    /\ lesson h2 = lesson h /\ catalog h2 = catalog h
    /\ catalogs h2 = catalogs h /\ username h2 = username h
    /\ db_name_prefix h2 = db_name_prefix h
    /\ working_dir_prefix h2 = working_dir_prefix h
    /\ db_name h2 = db_name h.
Proof.
  intros Hrun Hu. revert Hrun.
  unfold __init__, bind, time_time, sql, first_0, ret. simpl.
  destruct les as [l|]; [destruct (Str.truthy l) eqn:Ht|];
    intros [= <- <-]; simpl; rewrite Hu.
  - rewrite truthy_lower, Ht, lower_idem.
    eexists _, _. split; [reflexivity | by repeat split].
  - rewrite Ht. eexists _, _. split; [reflexivity | by repeat split].
  - eexists _, _. split; [reflexivity | by repeat split].
Qed.

Lemma init_from_own_attributes_witness :
  exists h2 w2',
    __init__ (lesson (jane_helper (Some "Intro 1") "main"))
             (catalog (jane_helper (Some "Intro 1") "main")) jane_no_hive
    = Ok h2 w2'
    /\ lesson h2 = lesson (jane_helper (Some "Intro 1") "main")
    /\ catalog h2 = catalog (jane_helper (Some "Intro 1") "main")
    /\ catalogs h2 = catalogs (jane_helper (Some "Intro 1") "main")
    /\ username h2 = username (jane_helper (Some "Intro 1") "main")
    /\ db_name_prefix h2 = db_name_prefix (jane_helper (Some "Intro 1") "main")
    /\ working_dir_prefix h2
       = working_dir_prefix (jane_helper (Some "Intro 1") "main")
    /\ db_name h2 = db_name (jane_helper (Some "Intro 1") "main").
Proof.
  apply (init_from_own_attributes (Some "Intro 1") "main" jane
           (record (ESql SelectCurrentUser) jane) jane_no_hive);
    reflexivity.
Defined.

(** Two identities share a namespace as soon as one is the sanitized
    form of the other: the helpers built for them, for the same lesson
    and catalog, have the same [db_name_prefix], [db_name] and catalog
    list, so what one of them resets or cleans up is the other's too. *)
Theorem sanitized_identity_shares_names
    (les : option string) (cat : string) (w1 w2 w1' w2' : Spark)
    (h1 h2 : DBAcademyHelper) :
  session_user w2 = Str.re_sub Str.non_alnum "_" (session_user w1) ->
  __init__ les cat w1 = Ok h1 w1' ->
  __init__ les cat w2 = Ok h2 w2' ->
  db_name_prefix h2 = db_name_prefix h1
  /\ db_name h2 = db_name h1
  /\ catalogs h2 = catalogs h1.
Proof.
  intros Hu H1 H2.
  destruct (init_spec les cat w1)
    as (h1' & H1' & _ & _ & Hc1 & _ & Hp1 & _ & Hd1 & _).
  destruct (init_spec les cat w2)
    as (h2' & H2' & _ & _ & Hc2 & _ & Hp2 & _ & Hd2 & _).
  rewrite H1 in H1'. injection H1' as <- _.
  rewrite H2 in H2'. injection H2' as <- _.
  assert (Hp : db_name_prefix h2 = db_name_prefix h1)
    by (by rewrite Hp1, Hp2, Hu, re_sub_non_alnum_idem).
  split; [exact Hp|]. split; [|by rewrite Hc1, Hc2].
  rewrite Hd1, Hd2, Hp. reflexivity.
Qed.

Lemma sanitized_identity_shares_names_witness :
  session_user jane_alias <> session_user jane
  /\ db_name_prefix (jane_alias_helper (Some "Intro") "main")
     = db_name_prefix (jane_helper (Some "Intro") "main")
  /\ db_name (jane_alias_helper (Some "Intro") "main")
     = db_name (jane_helper (Some "Intro") "main")
  /\ catalogs (jane_alias_helper (Some "Intro") "main")
     = catalogs (jane_helper (Some "Intro") "main").
Proof.
  split; [discriminate|].
  apply (sanitized_identity_shares_names (Some "Intro") "main"
           jane jane_alias (record (ESql SelectCurrentUser) jane)
           (record (ESql SelectCurrentUser) jane_alias));
    reflexivity.
Defined.

(** ** [init] with [create_db] set *)

Lemma for_each_app {S X} (l1 l2 : list X) (body : X -> M S unit) (s : S) :
  for_each (l1 ++ l2) body s
  = (for_each l1 body ;; for_each l2 body) s.
Proof.
  revert s. induction l1 as [|x l1 IH]; intros s; [done|].
  cbn [app for_each]. unfold bind.
  destruct (body x s) as [[] s1|e s1]; [|done].
  rewrite IH. reflexivity.
Qed.

Lemma sql_create (c d : string) (w : Spark) (dbs : gset string) :
  metastore w !! c = Some dbs ->
  sql (CreateDatabaseIfNotExists c d) w
  = Ok [] (set_metastore (<[c := dbs ∪ {[d]}]> (metastore w))
             (record (ESql (CreateDatabaseIfNotExists c d)) w)).
Proof. intros H. unfold sql. simpl. by rewrite H. Qed.

Lemma sql_create_missing (c d : string) (w : Spark) :
  metastore w !! c = None ->
  sql (CreateDatabaseIfNotExists c d) w
  = Raised (AnalysisException (CreateDatabaseIfNotExists c d))
           (record (ESql (CreateDatabaseIfNotExists c d)) w).
Proof. intros H. unfold sql. simpl. by rewrite H. Qed.

Lemma sql_use_database (d : string) (w : Spark) :
  d ∈ databases w (current_catalog w) ->
  sql (UseDatabase d) w
  = Ok [] (set_current (current_catalog w) d (record (ESql (UseDatabase d)) w)).
Proof. intros H. unfold sql. simpl. by rewrite decide_True. Qed.

(** The loop of [init], over catalogs that exist. *)
Lemma create_loop_run (db : string) (cs : list string) (h : DBAcademyHelper)
    (w : Spark) :
  (forall c, c ∈ cs -> c ∈ dom (metastore w)) ->
  exists w',
    for_each cs (fun c =>
      on_spark (print (nl +:+ "Creating the database " +:+ dq +:+ c +:+ "."
                       +:+ db +:+ dq)) ;;
      on_spark (sql (CreateDatabaseIfNotExists c db)) ;;
      ret tt) (h, w)
    = Ok tt (h, w')
    /\ journal w' = journal w ++ flat_map (create_calls db) cs
    /\ (forall c, metastore w' !! c
                  = if decide (c ∈ cs)
                    then (fun dbs => dbs ∪ {[db]}) <$> metastore w !! c
                    else metastore w !! c)
    /\ current_catalog w' = current_catalog w
    /\ current_database w' = current_database w
    /\ cache w' = cache w /\ conf w' = conf w
    /\ streams w' = streams w /\ dbfs w' = dbfs w.
Proof.
  revert w. induction cs as [|c cs IH]; intros w Hdom.
  - exists w. simpl. rewrite app_nil_r. by repeat split.
  - destruct (proj1 (elem_of_dom (metastore w) c)) as [dbs Hdbs];
      [apply Hdom; left|].
    set (w0 := record (EPrint (nl +:+ "Creating the database " +:+ dq +:+ c
                               +:+ "." +:+ db +:+ dq)) w).
    set (w1 := set_metastore (<[c := dbs ∪ {[db]}]> (metastore w0))
                 (record (ESql (CreateDatabaseIfNotExists c db)) w0)).
    destruct (IH w1)
      as (w' & Hrun & Hj & Hm & Hcc & Hcd & Hca & Hco & Hst & Hfs).
    { intros c' Hc'. subst w1 w0. simpl. rewrite dom_insert.
      apply elem_of_union_r, Hdom. by right. }
    exists w'. split; [|split; [|split]].
    + cbn [for_each]. unfold bind at 1.
      rewrite (bind_ok _ _ _ _ _
                 (on_spark_ok _ h _ _ _ (eq_refl : print _ w = Ok tt w0))).
      rewrite (bind_ok _ _ _ _ _
                 (on_spark_ok _ h _ _ _ (sql_create c db w0 dbs Hdbs))).
      exact Hrun.
    + rewrite Hj. subst w1 w0. simpl. by rewrite <- !app_assoc.
    + intros c'. rewrite Hm. subst w1 w0. simpl.
      destruct (decide (c' = c)) as [->|Hne].
      * rewrite lookup_insert_eq, Hdbs, (decide_True _ _ (list_elem_of_here _ _)).
        case_decide; simpl; [|done]. f_equal.
        apply set_eq. intros d. rewrite !elem_of_union. tauto.
      * rewrite lookup_insert_ne by done.
        destruct (decide (c' ∈ cs)) as [Hin|Hin].
        -- rewrite decide_True; [done | by right].
        -- rewrite decide_False; [done|].
           intros [?|?]%elem_of_cons; contradiction.
    + by rewrite Hcc, Hcd, Hca, Hco, Hst, Hfs.
Qed.

(** [init()] as a whole, when the catalogs of the list exist and the
    helper's own catalog is one of them. *)
Lemma init_run (h : DBAcademyHelper) (w : Spark) :
  catalog h ∈ catalogs h ->
  (forall c, c ∈ catalogs h -> c ∈ dom (metastore w)) ->
  exists w',
    init true (h, w) = Ok tt (with_create_db true h, w')
    /\ journal w'
       = journal w
         ++ EClearCache :: flat_map (create_calls (db_name h)) (catalogs h)
         ++ [ESql (UseCatalog (catalog h)); ESql (UseDatabase (db_name h))]
    /\ (forall c, metastore w' !! c
                  = if decide (c ∈ catalogs h)
                    then (fun dbs => dbs ∪ {[db_name h]}) <$> metastore w !! c
                    else metastore w !! c)
    /\ current_catalog w' = catalog h
    /\ current_database w' = db_name h
    /\ cache w' = ∅ /\ conf w' = conf w
    /\ streams w' = streams w /\ dbfs w' = dbfs w.
Proof.
  intros Hown Hdom.
  set (w0 := set_cache ∅ (record EClearCache w)).
  destruct (create_loop_run (db_name h) (catalogs h) (with_create_db true h) w0)
    as (w1 & Hrun1 & Hj1 & Hm1 & Hcc1 & Hcd1 & Hca1 & Hco1 & Hst1 & Hfs1).
  { exact Hdom. }
  assert (Hlook : metastore w1 !! catalog h
                  = (fun dbs => dbs ∪ {[db_name h]}) <$> metastore w !! catalog h).
  { rewrite Hm1. by rewrite decide_True. }
  destruct (proj1 (elem_of_dom (metastore w) (catalog h)) (Hdom _ Hown))
    as [dbs Hdbs].
  rewrite Hdbs in Hlook. simpl in Hlook.
  assert (Hd1 : catalog h ∈ dom (metastore w1)) by (apply elem_of_dom; eauto).
  set (w2 := set_current (catalog h) "default"
               (record (ESql (UseCatalog (catalog h))) w1)).
  assert (Hd2 : db_name h ∈ databases w2 (current_catalog w2)).
  { unfold databases. subst w2. simpl. rewrite Hlook. simpl.
    apply elem_of_union_r, elem_of_singleton. reflexivity. }
  eexists. split; [|split; [|split]].
  - unfold init.
    rewrite (bind_ok _ _ _ _ _
               (on_spark_ok _ h _ _ _ (eq_refl : clearCache w = Ok tt w0))).
    rewrite (bind_ok _ _ _ _ _
               (eq_refl : set_create_db true (h, w0)
                          = Ok tt (with_create_db true h, w0))).
    rewrite (bind_ok _ _ _ _ _
               (eq_refl : self (with_create_db true h, w0)
                          = Ok (with_create_db true h) (with_create_db true h, w0))).
    cbn [with_create_db catalogs db_name catalog].
    rewrite (bind_ok _ _ _ _ _ Hrun1).
    rewrite (bind_ok _ _ _ _ _
               (on_spark_ok _ _ _ _ _ (sql_use_catalog (catalog h) w1 Hd1))).
    rewrite (bind_ok _ _ _ _ _
               (on_spark_ok _ _ _ _ _ (sql_use_database (db_name h) w2 Hd2))).
    reflexivity.
  - simpl. rewrite Hj1. subst w0. simpl. by rewrite <- !app_assoc.
  - intros c. simpl. by rewrite Hm1.
  - simpl. by rewrite Hca1, Hco1, Hst1, Hfs1.
Qed.

Lemma sql_of_create_calls (db : string) (cs : list string) :
  sql_of (flat_map (create_calls db) cs)
  = (fun c => CreateDatabaseIfNotExists c db) <$> cs.
Proof.
  induction cs as [|c cs IH]; [done|].
  cbn [flat_map]. by rewrite sql_of_app, IH.
Qed.

(** The databases of [c] after a loop that added [db] to the catalogs
    [cs] and left the others alone. *)
Lemma databases_after_create (db : string) (cs : list string) (w w' : Spark) :
  (forall c, c ∈ cs -> c ∈ dom (metastore w)) ->
  (forall c, metastore w' !! c
             = if decide (c ∈ cs)
               then (fun dbs => dbs ∪ {[db]}) <$> metastore w !! c
               else metastore w !! c) ->
  (forall c, c ∈ cs -> databases w' c = databases w c ∪ {[db]})
  /\ (forall c, c ∉ cs -> metastore w' !! c = metastore w !! c).
Proof.
  intros Hdom Hm. split; intros c Hc.
  - unfold databases. rewrite Hm, decide_True by done.
    destruct (proj1 (elem_of_dom (metastore w) c) (Hdom c Hc)) as [dbs ->].
    reflexivity.
  - by rewrite Hm, decide_False.
Qed.

(** When the catalogs of the list exist and the helper's own catalog is
    among them, [init()] returns: the statements it sent are one
    [CREATE DATABASE IF NOT EXISTS] per catalog, in the order of the list,
    then [USE CATALOG] and [USE]; [db_name] has been added to each catalog
    of the list and nothing else in the metastore has changed; the
    helper's catalog and [db_name] are the active ones. *)
Theorem init_creates_in_every_catalog (h : DBAcademyHelper) (w : Spark) :
  catalog h ∈ catalogs h ->
  (forall c, c ∈ catalogs h -> c ∈ dom (metastore w)) ->
  exists h' w',
    init true (h, w) = Ok tt (h', w')
    /\ create_db h' = Some true
    /\ sql_of (since w w')
       = ((fun c => CreateDatabaseIfNotExists c (db_name h)) <$> catalogs h)
         ++ [UseCatalog (catalog h); UseDatabase (db_name h)]
    /\ (forall c, c ∈ catalogs h ->
          databases w' c = databases w c ∪ {[db_name h]})
    /\ (forall c, c ∉ catalogs h -> metastore w' !! c = metastore w !! c)
    /\ current_catalog w' = catalog h
    /\ current_database w' = db_name h.
Proof.
  intros Hown Hdom.
  destruct (init_run h w Hown Hdom)
    as (w' & Hrun & Hj & Hm & Hcc & Hcd & _).
  destruct (databases_after_create (db_name h) (catalogs h) w w' Hdom Hm)
    as [Hin Hout].
  exists (with_create_db true h), w'. split; [exact Hrun|].
  split; [done|]. split.
  { rewrite (since_app _ _ _ Hj).
    change (EClearCache :: ?j) with ([EClearCache] ++ j).
    by rewrite !sql_of_app, sql_of_create_calls. }
  by repeat split.
Qed.

Lemma init_creates_in_every_catalog_witness :
  exists h' w',
    init true (jane_helper (Some "Intro") "main", jane) = Ok tt (h', w')
    /\ create_db h' = Some true
    /\ sql_of (since jane w')
       = ((fun c => CreateDatabaseIfNotExists c
                      (db_name (jane_helper (Some "Intro") "main")))
            <$> catalogs (jane_helper (Some "Intro") "main"))
         ++ [UseCatalog (catalog (jane_helper (Some "Intro") "main"));
             UseDatabase (db_name (jane_helper (Some "Intro") "main"))]
    /\ (forall c, c ∈ catalogs (jane_helper (Some "Intro") "main") ->
          databases w' c
          = databases jane c ∪ {[db_name (jane_helper (Some "Intro") "main")]})
    /\ (forall c, c ∉ catalogs (jane_helper (Some "Intro") "main") ->
          metastore w' !! c = metastore jane !! c)
    /\ current_catalog w' = catalog (jane_helper (Some "Intro") "main")
    /\ current_database w' = db_name (jane_helper (Some "Intro") "main").
Proof.
  apply (init_creates_in_every_catalog (jane_helper (Some "Intro") "main") jane).
  - change ("main" ∈ ["main"; "hive_metastore"]). left.
  - apply Forall_forall. vm_compute. compute_done.
Defined.

(** [init()] is not all-or-nothing.  When the catalogs [pre] at the head
    of the list exist and the next one, [c], does not, [init()] raises on
    the [CREATE] for [c]: [db_name] has been created in the catalogs of
    [pre] already, [create_db] is recorded on the instance, no [USE] was
    sent and the active catalog and database are the former ones. *)
Theorem init_stops_at_missing_catalog
    (h : DBAcademyHelper) (w : Spark) (pre post : list string) (c : string) :
  catalogs h = pre ++ c :: post ->
  (forall c', c' ∈ pre -> c' ∈ dom (metastore w)) ->
  c ∉ dom (metastore w) ->
  exists h' w',
    init true (h, w)
    = Raised (AnalysisException (CreateDatabaseIfNotExists c (db_name h)))
             (h', w')
    /\ create_db h' = Some true
    /\ sql_of (since w w')
       = (fun c' => CreateDatabaseIfNotExists c' (db_name h)) <$> (pre ++ [c])
    /\ (forall c', c' ∈ pre ->
          databases w' c' = databases w c' ∪ {[db_name h]})
    /\ (forall c', c' ∉ pre -> metastore w' !! c' = metastore w !! c')
    /\ current_catalog w' = current_catalog w
    /\ current_database w' = current_database w.
Proof.
  intros Hcs Hpre Hc.
  set (w0 := set_cache ∅ (record EClearCache w)).
  destruct (create_loop_run (db_name h) pre (with_create_db true h) w0 Hpre)
    as (w1 & Hrun1 & Hj1 & Hm1 & Hcc1 & Hcd1 & _).
  destruct (databases_after_create (db_name h) pre w w1 Hpre Hm1)
    as [Hin Hout].
  assert (Hnone : metastore w1 !! c = None).
  { destruct (decide (c ∈ pre)) as [Hcp|Hcp]; [by destruct Hc; apply Hpre|].
    rewrite (Hout c Hcp). by apply not_elem_of_dom. }
  set (w2 := record (EPrint (nl +:+ "Creating the database " +:+ dq +:+ c
                             +:+ "." +:+ db_name h +:+ dq)) w1).
  exists (with_create_db true h),
         (record (ESql (CreateDatabaseIfNotExists c (db_name h))) w2).
  split; [|split; [done|split]].
  - unfold init.
    rewrite (bind_ok _ _ _ _ _
               (on_spark_ok _ h _ _ _ (eq_refl : clearCache w = Ok tt w0))).
    rewrite (bind_ok _ _ _ _ _
               (eq_refl : set_create_db true (h, w0)
                          = Ok tt (with_create_db true h, w0))).
    rewrite (bind_ok _ _ _ _ _
               (eq_refl : self (with_create_db true h, w0)
                          = Ok (with_create_db true h) (with_create_db true h, w0))).
    cbn [with_create_db catalogs db_name catalog]. rewrite Hcs.
    apply bind_raised. rewrite for_each_app.
    rewrite (bind_ok _ _ _ _ _ Hrun1). cbn [for_each].
    apply bind_raised.
    rewrite (bind_ok _ _ _ _ _
               (on_spark_ok _ _ _ _ _ (eq_refl : print _ w1 = Ok tt w2))).
    apply bind_raised, on_spark_raised.
    by apply sql_create_missing.
  - assert (Hj : journal (record (ESql (CreateDatabaseIfNotExists c (db_name h)))
                            w2)
                 = journal w
                   ++ EClearCache :: flat_map (create_calls (db_name h)) pre
                   ++ create_calls (db_name h) c).
    { subst w2. simpl. rewrite Hj1. subst w0. simpl. by rewrite <- !app_assoc. }
    rewrite (since_app _ _ _ Hj).
    change (EClearCache :: ?j) with ([EClearCache] ++ j).
    by rewrite !sql_of_app, sql_of_create_calls, fmap_app.
  - subst w2. simpl. by repeat split.
Qed.

Lemma init_stops_at_missing_catalog_witness :
  exists h' w',
    init true (jane_helper (Some "New") "main", jane_no_hive)
    = Raised (AnalysisException
                (CreateDatabaseIfNotExists "hive_metastore"
                   (db_name (jane_helper (Some "New") "main")))) (h', w')
    /\ create_db h' = Some true
    /\ sql_of (since jane_no_hive w')
       = (fun c' => CreateDatabaseIfNotExists c'
                      (db_name (jane_helper (Some "New") "main")))
           <$> (["main"] ++ ["hive_metastore"])
    /\ (forall c', c' ∈ ["main"] ->
          databases w' c'
          = databases jane_no_hive c'
            ∪ {[db_name (jane_helper (Some "New") "main")]})
    /\ (forall c', c' ∉ ["main"] ->
          metastore w' !! c' = metastore jane_no_hive !! c')
    /\ current_catalog w' = current_catalog jane_no_hive
    /\ current_database w' = current_database jane_no_hive.
Proof.
  apply (init_stops_at_missing_catalog (jane_helper (Some "New") "main")
           jane_no_hive ["main"] [] "hive_metastore").
  - reflexivity.
  - apply Forall_forall. vm_compute. compute_done.
  - vm_compute. compute_done.
Defined.

(** ** [cleanup]: what it leaves alone, when it stops short *)

(** Calls that satisfy [ok] keep the journal within [ok]. *)
Lemma keeps_calls (ok : event -> Prop) (w0 : Spark) {A} (m : M Spark A) :
  (forall w, exists j, journal (final (m w)) = journal w ++ j /\ Forall ok j) ->
  keeps (fun w => exists j, journal w = journal w0 ++ j /\ Forall ok j) m.
Proof.
  intros Hm w (j & Hj & Hall). destruct (Hm w) as (j' & Hj' & Hall').
  exists (j ++ j'). split; [by rewrite Hj', Hj, app_assoc|].
  by apply Forall_app.
Qed.

Lemma journal_sql (q : stmt) (w : Spark) :
  journal (final (sql q w)) = journal w ++ [ESql q].
Proof.
  unfold sql. destruct q; simpl; repeat case_decide;
    try destruct (metastore _ !! _); done.
Qed.

Lemma keeps_calls_sql (ok : event -> Prop) (w0 : Spark) (q : stmt) :
  ok (ESql q) ->
  keeps (fun w => exists j, journal w = journal w0 ++ j /\ Forall ok j) (sql q).
Proof.
  intros Hq. apply keeps_calls. intros w. exists [ESql q].
  split; [apply journal_sql | by repeat constructor].
Qed.

Lemma keeps_calls_print (ok : event -> Prop) (w0 : Spark) (t : string) :
  ok (EPrint t) ->
  keeps (fun w => exists j, journal w = journal w0 ++ j /\ Forall ok j) (print t).
Proof.
  intros Ht. apply keeps_calls. intros w. exists [EPrint t].
  split; [done | by repeat constructor].
Qed.

(** The same on a method: the instance stays and the journal stays
    within [ok]. *)
Lemma keeps_calls_on_spark (ok : event -> Prop) (h : DBAcademyHelper)
    (w0 : Spark) {A} (m : M Spark A) :
  keeps (fun w => exists j, journal w = journal w0 ++ j /\ Forall ok j) m ->
  keeps (fun s : Env => fst s = h
           /\ exists j, journal (snd s) = journal w0 ++ j /\ Forall ok j)
    (on_spark m).
Proof.
  intros Hm [h1 w1] [Hh Hk]. simpl in *. specialize (Hm w1 Hk).
  unfold on_spark. simpl. by destruct (m w1).
Qed.

Lemma keeps_bind_self {B} (P : Env -> Prop) (k : DBAcademyHelper -> M Env B) :
  (forall s, P s -> P (final (k (fst s) s))) -> keeps P (bind self k).
Proof. intros H s Hs. exact (H s Hs). Qed.

(** Returning or raising, [cleanup] leaves the instance as it was, and
    the only statements it sends are [USE CATALOG] for a catalog of the
    list, [SHOW DATABASES] and [DROP DATABASE IF EXISTS db_name CASCADE]:
    it drops no other database, and it never removes a file, sets a
    configuration key or clears the cache. *)
Theorem cleanup_calls_are_bounded (h : DBAcademyHelper) (w : Spark) :
  fst (final (cleanup (h, w))) = h
  /\ (forall q, ESql q ∈ since w (snd (final (cleanup (h, w)))) ->
        (exists c, q = UseCatalog c /\ c ∈ catalogs h)
        \/ q = ShowDatabases
        \/ q = DropDatabaseIfExistsCascade None (db_name h))
  /\ (forall p r, ERm p r ∉ since w (snd (final (cleanup (h, w)))))
  /\ (forall k v, EConfSet k v ∉ since w (snd (final (cleanup (h, w)))))
  /\ (EClearCache ∉ since w (snd (final (cleanup (h, w))))).
Proof.
  set (J := fun w1 : Spark =>
         exists j, journal w1 = journal w ++ j /\ Forall (cleanup_may h) j).
  set (P := fun s : Env => fst s = h /\ J (snd s)).
  assert (Hk : keeps P cleanup).
  { assert (Hret : forall a : unit, keeps P (ret a)) by (intros; apply keeps_ret).
    assert (Hsql : forall q, cleanup_may h (ESql q) -> keeps P (on_spark (sql q)))
      by (intros q Hq; by apply keeps_calls_on_spark, keeps_calls_sql).
    assert (Hprint : forall t, keeps P (on_spark (print t)))
      by (intros t; by apply keeps_calls_on_spark, keeps_calls_print).
    unfold cleanup.
    apply keeps_bind; [by intros [h1 w1]|intros l].
    apply keeps_bind.
    { apply keeps_for_each. intros s.
      apply keeps_bind; [apply Hprint|intros _].
      apply keeps_bind; [|intros _; apply keeps_try_except; [|apply Hret]].
      - apply keeps_calls_on_spark, keeps_calls. intros w1.
        exists [EStop (stream_id s)]. split; [|by repeat constructor].
        unfold stream_stop. simpl. by destruct (stop_raises s).
      - apply keeps_calls_on_spark, keeps_calls. intros w1.
        exists [EAwait (stream_id s)]. split; [|by repeat constructor].
        unfold stream_awaitTermination. simpl. by destruct (await_raises s). }
    intros _. apply keeps_bind_self. intros [h1 w1] [Hh HJ].
    simpl in Hh. subst h1. cbn [fst].
    refine (keeps_for_each_elem P _ _ _ (h, w1) (conj eq_refl HJ)).
    intros c Hc.
    apply keeps_bind; [by apply Hsql|intros _].
    apply keeps_bind; [by apply Hsql|intros df].
    destruct (_ =? _); [|apply Hret].
    apply keeps_bind; [apply Hprint|intros _].
    apply keeps_bind; [by apply Hsql|intros _]. apply Hret. }
  destruct (Hk (h, w)) as (Hh & j & Hj & Hall).
  { split; [done|]. exists []. split; [by rewrite app_nil_r | constructor]. }
  rewrite (since_app _ _ _ Hj). rewrite Forall_forall in Hall.
  split; [exact Hh|]. split; [|split; [|split]].
  - intros q Hq. specialize (Hall _ Hq).
    destruct q as [|c|d|c d| |oc d]; simpl in Hall; try done; eauto.
    destruct Hall as [-> ->]. eauto.
  - intros p r Hin. exact (Hall _ Hin).
  - intros k v Hin. exact (Hall _ Hin).
  - intros Hin. exact (Hall _ Hin).
Qed.



Lemma for_each_singleton {S X} (x : X) (body : X -> M S unit) (s s' : S) :
  for_each [x] body s = Ok tt s' -> body x s = Ok tt s'.
Proof.
  cbn [for_each]. unfold bind, ret.
  destruct (body x s) as [[] s1|e s1]; congruence.
Qed.

(** The first loop of [cleanup] when some [stop] times out: it raises at
    the first such query, without a statement sent. *)
Lemma stop_loop_raises (l : list Stream) (h : DBAcademyHelper) (w : Spark) :
  Exists (fun s => stop_raises s = true) l ->
  exists s w' j,
    s ∈ l /\ stop_raises s = true
    /\ for_each l (fun stream =>
         on_spark (print ("Stopping the stream " +:+ dq
                          +:+ str_of_opt (stream_name stream) +:+ dq)) ;;
         on_spark (stream_stop stream) ;;
         try_except (on_spark (stream_awaitTermination stream)) (ret tt))
         (h, w)
       = Raised (TimeoutException (stream_id s)) (h, w')
    /\ journal w' = journal w ++ j /\ sql_of j = []
    /\ metastore w' = metastore w.
Proof.
  revert w. induction l as [|s l IH]; intros w Hex.
  - by apply Exists_nil in Hex.
  - set (w0 := record (EPrint ("Stopping the stream " +:+ dq
                               +:+ str_of_opt (stream_name s) +:+ dq)) w).
    destruct (stop_raises s) eqn:Hs.
    + exists s, (record (EStop (stream_id s)) w0),
             [EPrint ("Stopping the stream " +:+ dq
                      +:+ str_of_opt (stream_name s) +:+ dq);
              EStop (stream_id s)].
      split; [left|]. split; [exact Hs|]. split; [|split; [|done]].
      * cbn [for_each]. apply bind_raised.
        rewrite (bind_ok _ _ _ _ _
                   (on_spark_ok _ h _ _ _ (eq_refl : print _ w = Ok tt w0))).
        apply bind_raised, on_spark_raised.
        unfold stream_stop. by rewrite Hs.
      * subst w0. simpl. by rewrite <- app_assoc.
    + apply Exists_cons in Hex as [Hex|Hex]; [congruence|].
      destruct (stop_loop_run [s] h w) as (w1 & Hrun1 & Hj1 & _ & Hm1).
      { intros s' Hs'. by apply list_elem_of_singleton in Hs' as ->. }
      destruct (IH w1 Hex) as (s' & w' & j & Hin & Hr & Hrun & Hj & Hsql & Hm).
      exists s', w', (stop_calls s ++ j).
      split; [by right|]. split; [exact Hr|]. split; [|split; [|split]].
      * apply for_each_singleton in Hrun1.
        cbn [for_each]. by rewrite (bind_ok _ _ _ _ _ Hrun1).
      * rewrite Hj, Hj1. simpl. by rewrite <- !app_assoc.
      * rewrite sql_of_app, Hsql. reflexivity.
      * by rewrite Hm, Hm1.
Qed.

(** One [stop] that times out ends [cleanup] before the second loop: it
    raises the [TimeoutException] of a query that was active, no
    statement has been sent and no database is dropped. *)
Theorem cleanup_aborts_on_stop_timeout (h : DBAcademyHelper) (w : Spark) :
  Exists (fun s => stream_active s = true /\ stop_raises s = true) (streams w) ->
  exists s w',
    s ∈ streams w /\ stream_active s = true /\ stop_raises s = true
    /\ cleanup (h, w) = Raised (TimeoutException (stream_id s)) (h, w')
    /\ sql_of (since w w') = []
    /\ metastore w' = metastore w.
Proof.
  intros Hex.
  set (l := filter (fun s => stream_active s = true) (streams w)).
  destruct (stop_loop_raises l h w)
    as (s & w' & j & Hin & Hr & Hrun & Hj & Hsql & Hm).
  { apply Exists_exists in Hex as (s & Hin & Ha & Hr).
    apply Exists_exists. exists s. split; [|done].
    by apply list_elem_of_filter. }
  apply list_elem_of_filter in Hin as [Ha Hin].
  exists s, w'. repeat split; try done.
  - unfold cleanup.
    rewrite (bind_ok _ _ _ _ _
               (on_spark_ok _ h _ _ _ (eq_refl : streams_active w = Ok l w))).
    by apply bind_raised.
  - by rewrite (since_app _ _ _ Hj).
Qed.

Lemma cleanup_aborts_on_stop_timeout_witness :
  exists s w',
    s ∈ streams (set_streams [MkStream 7 (Some "stuck") true true false] jane)
    /\ stream_active s = true /\ stop_raises s = true
    /\ cleanup (jane_helper None "main",
                set_streams [MkStream 7 (Some "stuck") true true false] jane)
       = Raised (TimeoutException (stream_id s)) (jane_helper None "main", w')
    /\ sql_of (since (set_streams [MkStream 7 (Some "stuck") true true false]
                        jane) w') = []
    /\ metastore w'
       = metastore (set_streams [MkStream 7 (Some "stuck") true true false]
                      jane).
Proof.
  apply (cleanup_aborts_on_stop_timeout (jane_helper None "main")
           (set_streams [MkStream 7 (Some "stuck") true true false] jane)).
  left. by split.
Defined.

(** One round of the second loop of [cleanup] again, with the active
    catalog and database it leaves. *)
Lemma drop_round_context (db c : string) (h : DBAcademyHelper) (w : Spark)
    (dbs : gset string) :
  metastore w !! c = Some dbs ->
  exists w',
    (on_spark (sql (UseCatalog c)) ;;
     df <- on_spark (sql ShowDatabases) ;;
     if count_databaseName_eq db df =? 1 then
       on_spark (print ("Dropping the database " +:+ dq +:+ c +:+ "."
                        +:+ db +:+ dq)) ;;
       on_spark (sql (DropDatabaseIfExistsCascade None db)) ;;
       ret tt
     else ret tt) (h, w)
    = Ok tt (h, w')
    /\ metastore w' = <[c := dbs ∖ {[db]}]> (metastore w)
    /\ streams w' = streams w
    /\ current_catalog w' = c
    /\ current_database w' = "default".
Proof.
  intros Hc.
  assert (Hdom : c ∈ dom (metastore w)) by (apply elem_of_dom; eauto).
  rewrite (bind_ok _ _ _ _ _ (on_spark_ok _ h _ _ _ (sql_use_catalog c w Hdom))).
  rewrite (bind_ok _ _ _ _ _ (on_spark_ok _ h _ _ _ (sql_show_databases _))).
  cbn [current_catalog set_current record].
  set (w2 := record (ESql ShowDatabases) _).
  assert (Hdb : databases (set_current c "default"
                  (record (ESql (UseCatalog c)) w)) c = dbs)
    by (by apply databases_lookup).
  rewrite Hdb, count_databases.
  destruct (decide (db ∈ dbs)) as [Hin|Hin].
  - rewrite bool_decide_eq_true_2 by done.
    rewrite (bind_ok _ _ _ _ _ (on_spark_ok _ h _ _ _ (eq_refl : print _ w2 = Ok tt _))).
    assert (Hc3 : metastore (record (EPrint ("Dropping the database " +:+ dq
                    +:+ c +:+ "." +:+ db +:+ dq)) w2)
                  !! default (current_catalog (record (EPrint
                       ("Dropping the database " +:+ dq +:+ c +:+ "." +:+ db
                        +:+ dq)) w2)) None = Some dbs) by exact Hc.
    rewrite (bind_ok _ _ _ _ _
               (on_spark_ok _ h _ _ _ (sql_drop None db _ dbs Hc3))).
    eexists. split; [reflexivity|]. subst w2. simpl. by repeat split.
  - rewrite bool_decide_eq_false_2 by done.
    exists w2. split; [reflexivity|]. subst w2. simpl.
    repeat split; try done.
    symmetry. apply insert_id. rewrite Hc. f_equal. symmetry.
    apply difference_disjoint_L, disjoint_singleton_r, Hin.
Qed.

(** The second loop of [cleanup] over catalogs that exist, distinct or
    not: the metastore and the active catalog it leaves. *)
Lemma drop_loop_context (db : string) (cs : list string) (h : DBAcademyHelper)
    (w : Spark) :
  (forall c, c ∈ cs -> c ∈ dom (metastore w)) ->
  exists w',
    for_each cs (fun c =>
      on_spark (sql (UseCatalog c)) ;;
      df <- on_spark (sql ShowDatabases) ;;
      if count_databaseName_eq db df =? 1 then
        on_spark (print ("Dropping the database " +:+ dq +:+ c +:+ "."
                         +:+ db +:+ dq)) ;;
        on_spark (sql (DropDatabaseIfExistsCascade None db)) ;;
        ret tt
      else ret tt) (h, w)
    = Ok tt (h, w')
    /\ (forall c, metastore w' !! c
                  = if decide (c ∈ cs)
                    then (fun dbs => dbs ∖ {[db]}) <$> metastore w !! c
                    else metastore w !! c)
    /\ streams w' = streams w
    /\ current_catalog w' = default (current_catalog w) (last cs)
    /\ current_database w'
       = match cs with [] => current_database w | _ => "default" end.
Proof.
  revert w. induction cs as [|c cs IH]; intros w Hdom.
  - exists w. by repeat split.
  - destruct (proj1 (elem_of_dom (metastore w) c)) as [dbs Hdbs];
      [apply Hdom; left|].
    destruct (drop_round_context db c h w dbs Hdbs)
      as (w1 & Hrun1 & Hm1 & Hs1 & Hcc1 & Hcd1).
    destruct (IH w1) as (w' & Hrun & Hm & Hs & Hcc & Hcd).
    { intros c' Hc'. rewrite Hm1, dom_insert. apply elem_of_union_r.
      apply Hdom. by right. }
    exists w'. split; [|split; [|split; [|split]]].
    + cbn [for_each]. by rewrite (bind_ok _ _ _ _ _ Hrun1).
    + intros c'. rewrite Hm, Hm1. destruct (decide (c' = c)) as [->|Hne].
      * rewrite lookup_insert_eq, Hdbs, (decide_True _ _ (list_elem_of_here _ _)).
        case_decide; simpl; [|done]. f_equal.
        apply set_eq. intros d. rewrite !elem_of_difference. tauto.
      * rewrite lookup_insert_ne by done.
        destruct (decide (c' ∈ cs)) as [Hin|Hin].
        -- rewrite decide_True; [done | by right].
        -- rewrite decide_False; [done|].
           intros [?|?]%elem_of_cons; contradiction.
    + by rewrite Hs, Hs1.
    + rewrite Hcc, Hcc1, last_cons. by destruct (last cs).
    + rewrite Hcd. by destruct cs.
Qed.

(** A property of the session alone is kept by a call into the session
    that keeps it. *)
Lemma keeps_on_spark_session {A} (Q : Spark -> Prop) (m : M Spark A) :
  (forall w, Q w -> Q (final (m w))) ->
  keeps (fun s : Env => Q (snd s)) (on_spark m).
Proof.
  intros Hm [h w] Hs. simpl in *. specialize (Hm w Hs).
  unfold on_spark. simpl. by destruct (m w).
Qed.

(** Stopping queries does not move the active catalog and database. *)
Lemma stop_loop_keeps_context (l : list Stream) (c d : string) :
  keeps (fun s : Env => current_catalog (snd s) = c
                        /\ current_database (snd s) = d)
    (for_each l (fun stream =>
       on_spark (print ("Stopping the stream " +:+ dq
                        +:+ str_of_opt (stream_name stream) +:+ dq)) ;;
       on_spark (stream_stop stream) ;;
       try_except (on_spark (stream_awaitTermination stream)) (ret tt))).
Proof.
  apply keeps_for_each. intros s.
  apply keeps_bind;
    [by apply (keeps_on_spark_session
                 (fun w => current_catalog w = c /\ current_database w = d))
    |intros _].
  apply keeps_bind; [|intros _; apply keeps_try_except; [|apply keeps_ret]].
  - apply (keeps_on_spark_session
             (fun w => current_catalog w = c /\ current_database w = d)).
    intros w Hw. unfold stream_stop. simpl. by destruct (stop_raises s).
  - apply (keeps_on_spark_session
             (fun w => current_catalog w = c /\ current_database w = d)).
    intros w Hw. unfold stream_awaitTermination. simpl.
    by destruct (await_raises s).
Qed.

(** [cleanup] when the catalogs exist and no [stop] times out: the state
    it leaves. *)
Lemma cleanup_state (h : DBAcademyHelper) (w : Spark) :
  (forall c, c ∈ catalogs h -> c ∈ dom (metastore w)) ->
  (forall s, s ∈ streams w -> stream_active s = true -> stop_raises s = false) ->
  exists w',
    cleanup (h, w) = Ok tt (h, w')
    /\ (forall c, metastore w' !! c
                  = if decide (c ∈ catalogs h)
                    then (fun dbs => dbs ∖ {[db_name h]}) <$> metastore w !! c
                    else metastore w !! c)
    /\ (forall s, s ∈ streams w' -> stream_active s = false)
    /\ current_catalog w' = default (current_catalog w) (last (catalogs h))
    /\ current_database w'
       = match catalogs h with [] => current_database w | _ => "default" end.
Proof.
  intros Hdom Hstop.
  set (l := filter (fun s => stream_active s = true) (streams w)).
  destruct (stop_loop_run l h w) as (w1 & Hrun1 & Hj1 & Hs1 & Hm1).
  { intros s [Ha Hs]%list_elem_of_filter. by apply Hstop. }
  destruct (drop_loop_context (db_name h) (catalogs h) h w1)
    as (w' & Hrun & Hm & Hs & Hcc & Hcd).
  { intros c Hc. rewrite Hm1. by apply Hdom. }
  assert (Hcur : current_catalog w1 = current_catalog w
                 /\ current_database w1 = current_database w).
  { pose proof (stop_loop_keeps_context l (current_catalog w)
                  (current_database w) (h, w) (conj eq_refl eq_refl)) as Hk.
    by rewrite Hrun1 in Hk. }
  destruct Hcur as [Hcur1 Hcur2].
  exists w'. split; [|split; [|split; [|split]]].
  - unfold cleanup.
    rewrite (bind_ok _ _ _ _ _
               (on_spark_ok _ h _ _ _ (eq_refl : streams_active w = Ok l w))).
    rewrite (bind_ok _ _ _ _ _ Hrun1).
    rewrite (bind_ok _ _ _ _ _ (eq_refl : self (h, w1) = Ok h (h, w1))).
    exact Hrun.
  - intros c. by rewrite Hm, Hm1.
  - intros s Hin. rewrite Hs, Hs1 in Hin. by apply stop_all_inactive in Hin.
  - by rewrite Hcc, Hcur1.
  - by rewrite Hcd, Hcur2.
Qed.

(** [cleanup] does not go on after a catalog the engine does not know.
    When the catalogs [pre] at the head of the list exist and the next
    one, [c], does not, it raises on [USE CATALOG c]: the queries are
    stopped and [db_name] is gone from the catalogs of [pre], but every
    later catalog of the list still has the database it had. *)
Theorem cleanup_stops_at_missing_catalog
    (h : DBAcademyHelper) (w : Spark) (pre post : list string) (c : string) :
  catalogs h = pre ++ c :: post ->
  (forall c', c' ∈ pre -> c' ∈ dom (metastore w)) ->
  c ∉ dom (metastore w) ->
  (forall s, s ∈ streams w -> stream_active s = true -> stop_raises s = false) ->
  exists w',
    cleanup (h, w) = Raised (AnalysisException (UseCatalog c)) (h, w')
    /\ (forall c', c' ∈ pre ->
          databases w' c' = databases w c' ∖ {[db_name h]})
    /\ (forall c', c' ∉ pre -> metastore w' !! c' = metastore w !! c')
    /\ (forall s, s ∈ streams w' -> stream_active s = false).
Proof.
  intros Hcs Hpre Hc Hstop.
  set (l := filter (fun s => stream_active s = true) (streams w)).
  destruct (stop_loop_run l h w) as (w1 & Hrun1 & Hj1 & Hs1 & Hm1).
  { intros s [Ha Hs]%list_elem_of_filter. by apply Hstop. }
  destruct (drop_loop_context (db_name h) pre h w1)
    as (w2 & Hrun2 & Hm2 & Hs2 & _).
  { intros c' Hc'. rewrite Hm1. by apply Hpre. }
  assert (Hnone : c ∉ dom (metastore w2)).
  { apply not_elem_of_dom. rewrite Hm2, Hm1.
    destruct (decide (c ∈ pre)) as [Hcp|Hcp]; [by destruct Hc; apply Hpre|].
    by apply not_elem_of_dom. }
  exists (record (ESql (UseCatalog c)) w2). split; [|split; [|split]].
  - unfold cleanup.
    rewrite (bind_ok _ _ _ _ _
               (on_spark_ok _ h _ _ _ (eq_refl : streams_active w = Ok l w))).
    rewrite (bind_ok _ _ _ _ _ Hrun1).
    rewrite (bind_ok _ _ _ _ _ (eq_refl : self (h, w1) = Ok h (h, w1))).
    rewrite Hcs, for_each_app, (bind_ok _ _ _ _ _ Hrun2).
    cbn [for_each]. apply bind_raised, bind_raised, on_spark_raised.
    by apply sql_use_catalog_missing.
  - intros c' Hc'. unfold databases. simpl.
    rewrite Hm2, Hm1, decide_True by done.
    destruct (proj1 (elem_of_dom (metastore w) c') (Hpre c' Hc')) as [dbs ->].
    reflexivity.
  - intros c' Hc'. simpl. by rewrite Hm2, Hm1, decide_False.
  - intros s Hin. simpl in Hin. rewrite Hs2, Hs1 in Hin.
    by apply stop_all_inactive in Hin.
Qed.

Lemma cleanup_stops_at_missing_catalog_witness :
  exists w',
    cleanup (jane_helper None "main", jane_no_hive)
    = Raised (AnalysisException (UseCatalog "hive_metastore"))
             (jane_helper None "main", w')
    /\ (forall c', c' ∈ ["main"] ->
          databases w' c'
          = databases jane_no_hive c' ∖ {[db_name (jane_helper None "main")]})
    /\ (forall c', c' ∉ ["main"] ->
          metastore w' !! c' = metastore jane_no_hive !! c')
    /\ (forall s, s ∈ streams w' -> stream_active s = false).
Proof.
  apply (cleanup_stops_at_missing_catalog (jane_helper None "main")
           jane_no_hive ["main"] [] "hive_metastore").
  - reflexivity.
  - apply Forall_forall. vm_compute. compute_done.
  - vm_compute. compute_done.
  - apply (proj1 (Forall_forall
             (fun s => stream_active s = true -> stop_raises s = false)
             (streams jane_no_hive))).
    vm_compute. compute_done.
Defined.

(** ** The life cycle *)

(** [cleanup] undoes [init()].  With the catalogs in place, the helper's
    catalog among them and no [stop] that times out, [init()] followed by
    [cleanup()] returns; [db_name] is then in no catalog of the list, and
    every other database and catalog is as before [init()], so the
    metastore is the former one when [db_name] was new.  The active
    catalog is then the last of the list and the active database
    ["default"], not the helper's. *)
Theorem cleanup_undoes_init (h : DBAcademyHelper) (w : Spark) :
  catalog h ∈ catalogs h ->
  (forall c, c ∈ catalogs h -> c ∈ dom (metastore w)) ->
  (forall s, s ∈ streams w -> stream_active s = true -> stop_raises s = false) ->
  exists h' w1 w2,
    init true (h, w) = Ok tt (h', w1)
    /\ cleanup (h', w1) = Ok tt (h', w2)
    /\ (forall c, c ∈ catalogs h ->
          databases w2 c = databases w c ∖ {[db_name h]})
    /\ (forall c, c ∉ catalogs h -> metastore w2 !! c = metastore w !! c)
    /\ ((forall c, c ∈ catalogs h -> db_name h ∉ databases w c) ->
        metastore w2 = metastore w)
    /\ last (catalogs h) = Some (current_catalog w2)
    /\ current_database w2 = "default".
Proof.
  intros Hown Hdom Hstop.
  destruct (init_run h w Hown Hdom)
    as (w1 & Hrun1 & _ & Hm1 & _ & _ & _ & _ & Hst1 & _).
  destruct (cleanup_state (with_create_db true h) w1)
    as (w2 & Hrun2 & Hm2 & _ & Hcc2 & Hcd2).
  { intros c Hc. apply elem_of_dom. rewrite Hm1, decide_True by exact Hc.
    destruct (proj1 (elem_of_dom (metastore w) c) (Hdom c Hc)) as [dbs ->].
    by eexists. }
  { rewrite Hst1. exact Hstop. }
  cbn [with_create_db catalogs db_name] in Hm2, Hcc2, Hcd2.
  assert (Hin : forall c dbs, c ∈ catalogs h -> metastore w !! c = Some dbs ->
                  metastore w2 !! c = Some (dbs ∖ {[db_name h]})).
  { intros c dbs Hc Hdbs. rewrite Hm2, Hm1, !decide_True, Hdbs by exact Hc.
    simpl. f_equal. apply set_eq. intros d.
    rewrite !elem_of_difference, elem_of_union. tauto. }
  exists (with_create_db true h), w1, w2.
  split; [exact Hrun1|]. split; [exact Hrun2|].
  split; [|split; [|split; [|split]]].
  - intros c Hc. unfold databases.
    destruct (proj1 (elem_of_dom (metastore w) c) (Hdom c Hc)) as [dbs Hdbs].
    by rewrite (Hin c dbs Hc Hdbs), Hdbs.
  - intros c Hc. by rewrite Hm2, Hm1, !decide_False.
  - intros Hnew. apply map_eq. intros c.
    destruct (decide (c ∈ catalogs h)) as [Hc|Hc].
    + destruct (proj1 (elem_of_dom (metastore w) c) (Hdom c Hc)) as [dbs Hdbs].
      rewrite (Hin c dbs Hc Hdbs), Hdbs. f_equal.
      apply difference_disjoint_L, disjoint_singleton_r.
      specialize (Hnew c Hc). unfold databases in Hnew. by rewrite Hdbs in Hnew.
    + by rewrite Hm2, Hm1, !decide_False.
  - rewrite Hcc2. destruct (last (catalogs h)) as [c|] eqn:Hl; [done|].
    apply last_None in Hl. rewrite Hl in Hown. by apply elem_of_nil in Hown.
  - rewrite Hcd2. destruct (catalogs h); [by apply elem_of_nil in Hown | done].
Qed.

Lemma cleanup_undoes_init_witness :
  exists h' w1 w2,
    init true (jane_helper (Some "New") "main", jane) = Ok tt (h', w1)
    /\ cleanup (h', w1) = Ok tt (h', w2)
    /\ (forall c, c ∈ catalogs (jane_helper (Some "New") "main") ->
          databases w2 c
          = databases jane c ∖ {[db_name (jane_helper (Some "New") "main")]})
    /\ (forall c, c ∉ catalogs (jane_helper (Some "New") "main") ->
          metastore w2 !! c = metastore jane !! c)
    /\ ((forall c, c ∈ catalogs (jane_helper (Some "New") "main") ->
           db_name (jane_helper (Some "New") "main") ∉ databases jane c) ->
        metastore w2 = metastore jane)
    /\ last (catalogs (jane_helper (Some "New") "main"))
       = Some (current_catalog w2)
    /\ current_database w2 = "default".
Proof.
  apply (cleanup_undoes_init (jane_helper (Some "New") "main") jane).
  - change ("main" ∈ ["main"; "hive_metastore"]). left.
  - apply Forall_forall. vm_compute. compute_done.
  - apply (proj1 (Forall_forall
             (fun s => stream_active s = true -> stop_raises s = false)
             (streams jane))).
    vm_compute. compute_done.
Defined.

Lemma filter_active_nil (l : list Stream) :
  (forall s, s ∈ l -> stream_active s = false) ->
  filter (fun s => stream_active s = true) l = [].
Proof.
  induction l as [|s l IH]; intros H; [done|].
  rewrite filter_cons, decide_False, IH; [done| |].
  - intros s' Hs'. apply H. by right.
  - rewrite (H s) by left. discriminate.
Qed.

(** A second [cleanup] finds nothing to do.  After a [cleanup] that
    returned, [cleanup] returns again: it stops no query and sends no
    [DROP], only [USE CATALOG] and [SHOW DATABASES] for each catalog, and
    the metastore and the queries are as the first one left them. *)
Theorem cleanup_twice (h : DBAcademyHelper) (w : Spark) :
  NoDup (catalogs h) ->
  (forall c, c ∈ catalogs h -> c ∈ dom (metastore w)) ->
  (forall s, s ∈ streams w -> stream_active s = true -> stop_raises s = false) ->
  exists w1 w2,
    cleanup (h, w) = Ok tt (h, w1)
    /\ cleanup (h, w1) = Ok tt (h, w2)
    /\ sql_of (since w1 w2)
       = flat_map (fun c => [UseCatalog c; ShowDatabases]) (catalogs h)
    /\ (forall id, EStop id ∉ since w1 w2)
    /\ metastore w2 = metastore w1
    /\ streams w2 = streams w1.
Proof.
  intros Hnd Hdom Hstop.
  destruct (cleanup_run h w Hnd Hdom Hstop) as (w1 & Hrun1 & _ & Hs1 & Hm1).
  assert (Hidle : forall s, s ∈ streams w1 -> stream_active s = false).
  { intros s Hin. rewrite Hs1 in Hin. by apply stop_all_inactive in Hin. }
  destruct (cleanup_run h w1 Hnd) as (w2 & Hrun2 & Hj2 & Hs2 & Hm2).
  { intros c Hc. apply elem_of_dom. rewrite Hm1, decide_True by exact Hc.
    destruct (proj1 (elem_of_dom (metastore w) c) (Hdom c Hc)) as [dbs ->].
    by eexists. }
  { intros s Hin Ha. rewrite (Hidle s Hin) in Ha. discriminate. }
  rewrite (filter_active_nil _ Hidle) in Hj2, Hs2. simpl in Hj2, Hs2.
  exists w1, w2. split; [exact Hrun1|]. split; [exact Hrun2|].
  rewrite (since_app _ _ _ Hj2). split; [|split; [|split]].
  - rewrite sql_of_cleanup_calls. apply flat_map_ext_elem. intros c Hc.
    rewrite decide_False; [done|].
    unfold databases. rewrite Hm1, decide_True by exact Hc.
    destruct (metastore w !! c) as [dbs|]; simpl.
    + rewrite elem_of_difference, elem_of_singleton. tauto.
    + apply not_elem_of_empty.
  - intros id. apply cleanup_calls_no_stop.
  - apply map_eq. intros c. rewrite Hm2, Hm1.
    case_decide; [|done].
    destruct (metastore w !! c) as [dbs|]; simpl; [|done]. f_equal.
    apply set_eq. intros d. rewrite !elem_of_difference. tauto.
  - exact Hs2.
Qed.

Lemma cleanup_twice_witness :
  exists w1 w2,
    cleanup (jane_helper None "main", jane) = Ok tt (jane_helper None "main", w1)
    /\ cleanup (jane_helper None "main", w1)
       = Ok tt (jane_helper None "main", w2)
    /\ sql_of (since w1 w2)
       = flat_map (fun c => [UseCatalog c; ShowDatabases])
           (catalogs (jane_helper None "main"))
    /\ (forall id, EStop id ∉ since w1 w2)
    /\ metastore w2 = metastore w1
    /\ streams w2 = streams w1.
Proof.
  apply (cleanup_twice (jane_helper None "main") jane).
  - vm_compute. compute_done.
  - apply Forall_forall. vm_compute. compute_done.
  - apply (proj1 (Forall_forall
             (fun s => stream_active s = true -> stop_raises s = false)
             (streams jane))).
    vm_compute. compute_done.
Defined.

(** [init()] can be repeated: a second [init()] returns as the first
    did and leaves the metastore, the active catalog and the active
    database as the first one left them, since the databases are created
    only [IF NOT EXISTS]. *)
Theorem init_twice (h : DBAcademyHelper) (w : Spark) :
  catalog h ∈ catalogs h ->
  (forall c, c ∈ catalogs h -> c ∈ dom (metastore w)) ->
  exists h' w1 w2,
    init true (h, w) = Ok tt (h', w1)
    /\ init true (h', w1) = Ok tt (h', w2)
    /\ metastore w2 = metastore w1
    /\ current_catalog w2 = current_catalog w1
    /\ current_database w2 = current_database w1.
Proof.
  intros Hown Hdom.
  destruct (init_run h w Hown Hdom)
    as (w1 & Hrun1 & _ & Hm1 & Hcc1 & Hcd1 & _).
  destruct (init_run (with_create_db true h) w1)
    as (w2 & Hrun2 & _ & Hm2 & Hcc2 & Hcd2 & _).
  { exact Hown. }
  { intros c Hc. apply elem_of_dom. cbn [with_create_db catalogs] in Hc.
    rewrite Hm1, decide_True by exact Hc.
    destruct (proj1 (elem_of_dom (metastore w) c) (Hdom c Hc)) as [dbs ->].
    by eexists. }
  cbn [with_create_db catalogs db_name catalog] in Hm2, Hcc2, Hcd2.
  exists (with_create_db true h), w1, w2.
  split; [exact Hrun1|]. split; [exact Hrun2|].
  split; [|by rewrite Hcc2, Hcd2, Hcc1, Hcd1].
  apply map_eq. intros c. rewrite Hm2, Hm1. case_decide; [|done].
  destruct (metastore w !! c) as [dbs|]; simpl; [|done]. f_equal.
  apply set_eq. intros d. rewrite !elem_of_union. tauto.
Qed.

Lemma init_twice_witness :
  exists h' w1 w2,
    init true (jane_helper (Some "New") "main", jane) = Ok tt (h', w1)
    /\ init true (h', w1) = Ok tt (h', w2)
    /\ metastore w2 = metastore w1
    /\ current_catalog w2 = current_catalog w1
    /\ current_database w2 = current_database w1.
Proof.
  apply (init_twice (jane_helper (Some "New") "main") jane).
  - change ("main" ∈ ["main"; "hive_metastore"]). left.
  - apply Forall_forall. vm_compute. compute_done.
Defined.

(** After [init()] and [conclude_setup()] the configuration describes
    the session: [da.catalog] and [da.db_name] hold the active catalog
    and the active database, that database exists in that catalog, and
    no other key of the configuration has changed.  [conclude_setup]
    itself sends no statement and leaves the metastore alone. *)
Theorem setup_records_active_context (h : DBAcademyHelper) (w : Spark) :
  catalog h ∈ catalogs h ->
  (forall c, c ∈ catalogs h -> c ∈ dom (metastore w)) ->
  exists h' w1 w2,
    init true (h, w) = Ok tt (h', w1)
    /\ conclude_setup (h', w1) = Ok tt (h', w2)
    /\ conf w2 !! "da.catalog" = Some (current_catalog w2)
    /\ conf w2 !! "da.db_name" = Some (current_database w2)
    /\ current_database w2 ∈ databases w2 (current_catalog w2)
    /\ (forall k, k <> "da.catalog" -> k <> "da.db_name" ->
          conf w2 !! k = conf w !! k)
    /\ sql_of (since w1 w2) = []
    /\ metastore w2 = metastore w1.
Proof.
  intros Hown Hdom.
  destruct (init_run h w Hown Hdom)
    as (w1 & Hrun1 & _ & Hm1 & Hcc1 & Hcd1 & _ & Hco1 & _).
  eexists (with_create_db true h), w1, _.
  split; [exact Hrun1|]. split; [reflexivity|].
  cbn [with_create_db catalog db_name start]. simpl.
  split; [|split; [|split; [|split; [|split]]]].
  - rewrite lookup_insert_ne by discriminate.
    by rewrite lookup_insert_eq, Hcc1.
  - by rewrite lookup_insert_eq, Hcd1.
  - unfold databases. simpl. rewrite Hcc1, Hcd1, Hm1, decide_True by exact Hown.
    destruct (proj1 (elem_of_dom (metastore w) (catalog h)) (Hdom _ Hown))
      as [dbs ->].
    simpl. apply elem_of_union_r, elem_of_singleton. reflexivity.
  - intros k Hk1 Hk2. by rewrite !lookup_insert_ne, Hco1.
  - set (j := [EConfSet "da.catalog" (catalog h);
               EConfSet "da.db_name" (db_name h);
               EPrint (nl +:+ "Setup completed in "
                       +:+ str_of_int (clock w1 - start h)%Z +:+ " seconds")]).
    rewrite (since_app _ _ j); [done|]. subst j. simpl.
    by rewrite <- !app_assoc.
  - reflexivity.
Qed.

Lemma setup_records_active_context_witness :
  exists h' w1 w2,
    init true (jane_helper (Some "New") "main", jane) = Ok tt (h', w1)
    /\ conclude_setup (h', w1) = Ok tt (h', w2)
    /\ conf w2 !! "da.catalog" = Some (current_catalog w2)
    /\ conf w2 !! "da.db_name" = Some (current_database w2)
    /\ current_database w2 ∈ databases w2 (current_catalog w2)
    /\ (forall k, k <> "da.catalog" -> k <> "da.db_name" ->
          conf w2 !! k = conf jane !! k)
    /\ sql_of (since w1 w2) = []
    /\ metastore w2 = metastore w1.
Proof.
  apply (setup_records_active_context (jane_helper (Some "New") "main") jane).
  - change ("main" ∈ ["main"; "hive_metastore"]). left.
  - apply Forall_forall. vm_compute. compute_done.
Defined.

(** ** The reset script: what it leaves alone, when it stops short *)

(** The loop of the script keeps what its statements and prints keep. *)
Lemma reset_loop_keeps (Q : Spark -> Prop) (pfx : string) (cs : list string) :
  (forall q, keeps Q (sql q)) ->
  (forall t, keeps Q (print t)) ->
  keeps Q
    (for_each cs (fun catalog =>
       print ("Processing the catalog " +:+ catalog) ;;
       sql (UseCatalog catalog) ;;
       rows <- sql ShowDatabases ;;
       for_each rows (fun row =>
         let db_name := row in
         if Str.startswith db_name pfx then
           print (" - dropping database " +:+ catalog +:+ "." +:+ db_name) ;;
           sql (DropDatabaseIfExistsCascade (Some catalog) db_name) ;;
           ret tt
         else ret tt))).
Proof.
  intros Hsql Hprint. apply keeps_for_each. intros c.
  apply keeps_bind; [apply Hprint|intros _].
  apply keeps_bind; [apply Hsql|intros _].
  apply keeps_bind; [apply Hsql|intros rows].
  apply keeps_for_each. intros row. cbn zeta.
  destruct (Str.startswith row pfx); [|apply keeps_ret].
  apply keeps_bind; [apply Hprint|intros _].
  apply keeps_bind; [apply Hsql|intros _; apply keeps_ret].
Qed.

Lemma sql_keeps_dbfs (X : gset string) (q : stmt) :
  keeps (fun w => dbfs w = X) (sql q).
Proof.
  intros w Hw. unfold sql. destruct q; simpl; repeat case_decide;
    try destruct (metastore _ !! _); done.
Qed.



(** Returning or raising, the reset script makes no call but prints,
    the identity query, [USE CATALOG], [SHOW DATABASES], [DROP] and one
    kind of removal: it stops and awaits no streaming query, sets no
    configuration key, does not clear the cache, creates no database,
    selects no database, visits no catalog outside the helper's list and
    removes no path but [working_dir_prefix], recursively. *)
Theorem reset_calls_are_bounded (cat : string) (w : Spark) :
  exists DA w0,
    __init__ None cat w = Ok DA w0
    /\ (let made := since w (final (reset_script cat w)) in
        (forall id, EStop id ∉ made)
        /\ (forall id, EAwait id ∉ made)
        /\ (forall k v, EConfSet k v ∉ made)
        /\ (EClearCache ∉ made)
        /\ (forall c d, ESql (CreateDatabaseIfNotExists c d) ∉ made)
        /\ (forall d, ESql (UseDatabase d) ∉ made)
        /\ (forall c, ESql (UseCatalog c) ∈ made -> c ∈ catalogs DA)
        /\ (forall p r, ERm p r ∈ made ->
              p = working_dir_prefix DA /\ r = true)).
Proof.
  destruct (init_spec None cat w) as (DA & Hrun0 & _).
  exists DA, (record (ESql SelectCurrentUser) w). split; [exact Hrun0|].
  set (J := fun w1 : Spark =>
         exists j, journal w1 = journal w ++ j /\ Forall (reset_only DA) j).
  assert (HJ : J (final (reset_script cat w))).
  { assert (Hprint : forall t, keeps J (print t))
      by (intros t; by apply keeps_calls_print).
    unfold reset_script. rewrite (bind_ok _ _ _ _ _ Hrun0). cbn zeta.
    match goal with
    | |- J (final (?m ?s)) => enough (Hk : keeps J m)
    end.
    { apply Hk. exists [ESql SelectCurrentUser].
      split; [done | by repeat constructor]. }
    apply keeps_bind; [by apply keeps_calls_sql|intros df].
    apply keeps_bind; [intros w1 Hw1; by destruct df|intros u].
    apply keeps_bind.
    { apply keeps_for_each_elem. intros c Hc.
      apply keeps_bind; [apply Hprint|intros _].
      apply keeps_bind; [by apply keeps_calls_sql|intros _].
      apply keeps_bind; [by apply keeps_calls_sql|intros rows].
      apply keeps_for_each. intros row. cbn zeta.
      destruct (Str.startswith row (db_name_prefix DA)) eqn:Hp;
        [|apply keeps_ret].
      apply keeps_bind; [apply Hprint|intros _].
      apply keeps_bind; [|intros _; apply keeps_ret].
      apply keeps_calls_sql. by exists c. }
    intros _. apply keeps_bind; [|intros b].
    { apply keeps_calls. intros w1. exists [ERm (working_dir_prefix DA) true].
      split; [done | by repeat constructor]. }
    apply keeps_bind; [apply Hprint|intros _]. apply Hprint. }
  destruct HJ as (j & Hj & Hall). rewrite (since_app _ _ _ Hj). cbn zeta.
  rewrite Forall_forall in Hall.
  split; [intros id Hin; exact (Hall _ Hin)|].
  split; [intros id Hin; exact (Hall _ Hin)|].
  split; [intros k v Hin; exact (Hall _ Hin)|].
  split; [intros Hin; exact (Hall _ Hin)|].
  split; [intros c d Hin; exact (Hall _ Hin)|].
  split; [intros d Hin; exact (Hall _ Hin)|].
  split; [intros c Hin; exact (Hall _ Hin)|].
  intros p r Hin. exact (Hall _ Hin).
Qed.



(** The reset script, to its end, with the file system it leaves. *)
Lemma reset_script_dbfs (cat : string) (w : Spark) :
  (forall c, c ∈ catalog_list cat -> c ∈ dom (metastore w)) ->
  exists DA w',
    __init__ None cat w = Ok DA (record (ESql SelectCurrentUser) w)
    /\ reset_script cat w = Ok tt w'
    /\ dbfs w'
       = dbfs w ∖ filter (fun p => below (working_dir_prefix DA) p = true)
                    (dbfs w)
    /\ ERm (working_dir_prefix DA) true ∈ since w w'.
Proof.
  intros Hdom.
  destruct (init_spec None cat w) as (DA & Hrun0 & _ & _ & Hcs & _).
  set (w0 := record (ESql SelectCurrentUser) w) in *.
  set (w00 := record (ESql SelectCurrentUser) w0).
  destruct (reset_loop_run (db_name_prefix DA) (catalogs DA) w00)
    as (w1 & Hrun1 & Hj1 & Hm1).
  { rewrite Hcs. apply catalog_list_NoDup. }
  { intros c Hc. apply Hdom. by rewrite <- Hcs. }
  assert (Hfs : dbfs w1 = dbfs w).
  { pose proof (reset_loop_keeps (fun w2 => dbfs w2 = dbfs w)
                  (db_name_prefix DA) (catalogs DA)
                  (sql_keeps_dbfs (dbfs w))
                  (fun t w2 Hw2 => Hw2) w00 eq_refl) as Hk.
    by rewrite Hrun1 in Hk. }
  eexists DA, _. split; [exact Hrun0|]. split; [|split].
  - unfold reset_script.
    rewrite (bind_ok _ _ _ _ _ Hrun0). cbn zeta.
    rewrite (bind_ok _ _ _ _ _ (sql_select_current_user w0)).
    rewrite (bind_ok _ _ _ _ _
               (eq_refl : first_0 [session_user w0] w00
                          = Ok (session_user w0) w00)).
    rewrite (bind_ok _ _ _ _ _ Hrun1).
    rewrite (bind_ok _ _ _ _ _ (eq_refl : fs_rm _ true w1 = Ok _ _)).
    rewrite (bind_ok _ _ _ _ _ (eq_refl : print _ _ = Ok tt _)).
    reflexivity.
  - simpl. by rewrite Hfs.
  - unfold since. simpl. rewrite Hj1. subst w00 w0. simpl.
    rewrite <- !app_assoc, drop_app_length.
    rewrite !elem_of_app, !elem_of_cons. tauto.
Qed.

Lemma reset_calls_no_rm (pfx : string) (w : Spark) (cs : list string)
    (p : string) (r : bool) :
  ERm p r ∉ flat_map (reset_calls pfx w) cs.
Proof.
  rewrite list_elem_of_In, in_flat_map. intros (c & _ & Hin).
  unfold reset_calls in Hin.
  repeat (destruct Hin as [Hin|Hin]; [discriminate|]).
  apply in_flat_map in Hin as (row & _ & Hin). unfold reset_row_calls in Hin.
  destruct (Str.startswith row pfx); [|done].
  destruct Hin as [Hin|[Hin|[]]]; discriminate.
Qed.

(** When the catalogs of the list exist the reset script ends with one
    removal, that of [working_dir_prefix], recursive, made after the
    last [DROP] and followed by two prints only; no path that is
    [working_dir_prefix] or lies below it is left in the file system. *)
Theorem reset_empties_working_dir (cat : string) (w : Spark) :
  cat ∈ dom (metastore w) ->
  "hive_metastore" ∈ dom (metastore w) ->
  exists DA w0 w' j t1 t2,
    __init__ None cat w = Ok DA w0
    /\ reset_script cat w = Ok tt w'
    /\ since w w'
       = j ++ [ERm (working_dir_prefix DA) true; EPrint t1; EPrint t2]
    /\ (forall p r, ERm p r ∉ j)
    /\ forall p,
         p ∈ dbfs w' ->
         p <> working_dir_prefix DA
         /\ Str.startswith p (working_dir_prefix DA +:+ "/") = false.
Proof.
  intros Hcat Hhive.
  assert (Hdom : forall c, c ∈ catalog_list cat -> c ∈ dom (metastore w)).
  { intros c. unfold catalog_list. case_decide.
    - intros Hc. by apply list_elem_of_singleton in Hc as ->.
    - intros [->|Hc]%elem_of_cons; [done|].
      by apply list_elem_of_singleton in Hc as ->. }
  destruct (reset_script_dbfs cat w Hdom)
    as (DA & w' & Hrun0 & Hrun & Hfs & _).
  destruct (reset_script_run cat w Hdom)
    as (DA' & w'' & b & Hrun0' & _ & Hrun' & Hj & _).
  rewrite Hrun0 in Hrun0'. injection Hrun0' as <-.
  rewrite Hrun in Hrun'. injection Hrun' as <-.
  eexists DA, (record (ESql SelectCurrentUser) w), w', _, _, _.
  split; [exact Hrun0|]. split; [exact Hrun|].
  split; [rewrite Hj, app_assoc; reflexivity|]. split.
  - intros p r [Hin|Hin]%elem_of_app.
    + rewrite !elem_of_cons, elem_of_nil in Hin.
      destruct Hin as [?|[?|[]]]; discriminate.
    + by apply reset_calls_no_rm in Hin.
  - intros p. rewrite Hfs, elem_of_difference, elem_of_filter. unfold below.
    intros [Hin Hnot].
    destruct (decide (p = working_dir_prefix DA)) as [Hp|Hp].
    + exfalso. apply Hnot. split; [|exact Hin].
      by rewrite bool_decide_eq_true_2.
    + split; [exact Hp|].
      destruct (Str.startswith p (working_dir_prefix DA +:+ "/")); [|done].
      exfalso. apply Hnot. split; [apply orb_true_r | exact Hin].
Qed.

Lemma reset_empties_working_dir_witness :
  exists DA w0 w' j t1 t2,
    __init__ None "main" jane = Ok DA w0
    /\ reset_script "main" jane = Ok tt w'
    /\ since jane w'
       = j ++ [ERm (working_dir_prefix DA) true; EPrint t1; EPrint t2]
    /\ (forall p r, ERm p r ∉ j)
    /\ forall p,
         p ∈ dbfs w' ->
         p <> working_dir_prefix DA
         /\ Str.startswith p (working_dir_prefix DA +:+ "/") = false.
Proof.
  apply (reset_empties_working_dir "main" jane).
  - vm_compute. compute_done.
  - vm_compute. compute_done.
Defined.

(** The working directory outlives a reset that fails.  When the
    helper's catalog does not exist the script raises on the first
    [USE CATALOG]: [dbutils.fs.rm] is never called, no [DROP] is sent,
    and the file system and the metastore are as they were. *)
Theorem reset_aborts_before_rm (cat : string) (w : Spark) :
  cat ∉ dom (metastore w) ->
  exists w',
    reset_script cat w = Raised (AnalysisException (UseCatalog cat)) w'
    /\ since w w'
       = [ ESql SelectCurrentUser; ESql SelectCurrentUser;
           EPrint ("Processing the catalog " +:+ cat);
           ESql (UseCatalog cat) ]
    /\ dbfs w' = dbfs w
    /\ metastore w' = metastore w.
Proof.
  intros Hcat.
  destruct (init_spec None cat w) as (DA & Hrun0 & _ & _ & Hcs & _).
  assert (Hhead : exists rest, catalogs DA = cat :: rest).
  { rewrite Hcs. unfold catalog_list. case_decide as Hc; eauto.
    rewrite Hc. eauto. }
  destruct Hhead as [rest Hrest].
  set (w0 := record (ESql SelectCurrentUser) w) in *.
  set (w00 := record (ESql SelectCurrentUser) w0).
  set (w1 := record (EPrint ("Processing the catalog " +:+ cat)) w00).
  exists (record (ESql (UseCatalog cat)) w1). split; [|split; [|done]].
  - unfold reset_script.
    rewrite (bind_ok _ _ _ _ _ Hrun0). cbn zeta.
    rewrite (bind_ok _ _ _ _ _ (sql_select_current_user w0)).
    rewrite (bind_ok _ _ _ _ _
               (eq_refl : first_0 [session_user w0] w00
                          = Ok (session_user w0) w00)).
    apply bind_raised. rewrite Hrest. cbn [for_each].
    apply bind_raised.
    rewrite (bind_ok _ _ _ _ _ (eq_refl : print _ w00 = Ok tt w1)).
    apply bind_raised. by apply sql_use_catalog_missing.
  - apply since_app. subst w1 w00 w0. simpl. by rewrite <- !app_assoc.
Qed.

Lemma reset_aborts_before_rm_witness :
  exists w',
    reset_script "nosuch" jane
    = Raised (AnalysisException (UseCatalog "nosuch")) w'
    /\ since jane w'
       = [ ESql SelectCurrentUser; ESql SelectCurrentUser;
           EPrint ("Processing the catalog " +:+ "nosuch");
           ESql (UseCatalog "nosuch") ]
    /\ dbfs w' = dbfs jane
    /\ metastore w' = metastore jane.
Proof.
  apply (reset_aborts_before_rm "nosuch" jane). vm_compute. compute_done.
Defined.


